(** * Hospitality Booking Bot: the REST layer of [api.py]

    A shallow embedding of the endpoints of [api.py] and of the text
    processing they perform on the replies of [BookingManager].

    Modelling conventions.
    - A Python [str] is a [string]; a character is a code point in the
      range U+0000..U+00FF (type [ascii]).  On that range [\d] is [0-9],
      [str.lower] shifts [A-Z] and the Latin-1 capitals, and the white
      space of [str.strip], [str.split] and [int] is the set [isspace].
    - A Python exception is the text [str(e)]; a call that may raise
      returns an [outcome].
    - The interpreter's configurable cap on the length of decimal literals
      accepted by [int] and produced by [str] is outside the model.
    - [float] rounds the decimal value to the nearest binary64 number,
      ties to even, with infinities and signed zeros.
    - The request and response models of [api_models] are records with
      the fields the endpoints read and write; their validation is
      outside the model. *)

From Stdlib Require Import String Ascii List ZArith NArith QArith Lia Bool.
From stdpp Require Import gmap strings list.

Local Open Scope string_scope.
Local Open Scope list_scope.

(** ** Python strings *)

Module PyStr.

Definition ord (c : ascii) : N := N_of_ascii c.

Definition in_range (lo hi n : N) : bool := (lo <=? n)%N && (n <=? hi)%N.

(** [\d] and [str.isdigit] on U+0000..U+00FF. *)
Definition isdigit (c : ascii) : bool := in_range 48 57 (ord c).

(** [str.isspace] on U+0000..U+00FF: TAB..CR, FS..US, SPACE, NEL, NBSP. *)
Definition isspace (c : ascii) : bool :=
  let n := ord c in
  in_range 9 13 n || in_range 28 32 n || (n =? 133)%N || (n =? 160)%N.

(** [str.lower] on one character of U+0000..U+00FF. *)
Definition lower_char (c : ascii) : ascii :=
  let n := ord c in
  if in_range 65 90 n || (in_range 192 222 n && negb (n =? 215)%N)
  then ascii_of_N (n + 32)
  else c.

Fixpoint lower (s : string) : string :=
  match s with
  | EmptyString => EmptyString
  | String c t => String (lower_char c) (lower t)
  end.

(** [s.startswith(p)]. *)
Fixpoint startswith (p s : string) : bool :=
  match p, s with
  | EmptyString, _ => true
  | String a p', String b s' => Stdlib.Strings.Ascii.eqb a b && startswith p' s'
  | String _ _, EmptyString => false
  end.

(** [needle in hay]. *)
Fixpoint contains (needle hay : string) : bool :=
  startswith needle hay ||
  match hay with
  | EmptyString => false
  | String _ t => contains needle t
  end.

(** [s.split(sep)] for a separator of one character. *)
Fixpoint split_on (sep : ascii) (s : string) : list string :=
  match s with
  | EmptyString => [EmptyString]
  | String c t =>
      if Stdlib.Strings.Ascii.eqb c sep then EmptyString :: split_on sep t
      else match split_on sep t with
           | h :: r => String c h :: r
           | [] => [String c EmptyString]
           end
  end.

(** [s.split()]: the maximal runs of characters that are not white space. *)
Fixpoint split_ws (s : string) : list string :=
  match s with
  | EmptyString => []
  | String c t =>
      if isspace c then split_ws t
      else match t with
           | EmptyString => [String c EmptyString]
           | String c' _ =>
               if isspace c' then String c EmptyString :: split_ws t
               else match split_ws t with
                    | h :: r => String c h :: r
                    | [] => [String c EmptyString]
                    end
           end
  end.

Fixpoint lstrip (s : string) : string :=
  match s with
  | EmptyString => EmptyString
  | String c t => if isspace c then lstrip t else s
  end.

Fixpoint rstrip (s : string) : string :=
  match s with
  | EmptyString => EmptyString
  | String c t =>
      match rstrip t with
      | EmptyString => if isspace c then EmptyString else String c EmptyString
      | r => String c r
      end
  end.

(** [s.strip()]. *)
Definition strip (s : string) : string := rstrip (lstrip s).

(** [s.replace(c, '')] for a one-character [c]. *)
Fixpoint remove_char (x : ascii) (s : string) : string :=
  match s with
  | EmptyString => EmptyString
  | String c t =>
      if Stdlib.Strings.Ascii.eqb c x then remove_char x t
      else String c (remove_char x t)
  end.

(** The [n] leading characters of [s] when all of them are digits. *)
Fixpoint take_digits (n : nat) (s : string) : option string :=
  match n with
  | O => Some EmptyString
  | S n' =>
      match s with
      | String d t =>
          if isdigit d
          then match take_digits n' t with
               | Some ds => Some (String d ds)
               | None => None
               end
          else None
      | EmptyString => None
      end
  end.

(** [re.match(r'BK\d{4}', s)]: the match anchored at the start of [s]. *)
Definition match_BK4 (s : string) : option string :=
  match s with
  | String b (String k t) =>
      if Stdlib.Strings.Ascii.eqb b "B" && Stdlib.Strings.Ascii.eqb k "K"
      then match take_digits 4 t with
           | Some ds => Some (String b (String k ds))
           | None => None
           end
      else None
  | _ => None
  end.

(** [re.search(r'BK\d{4}', s)]: the leftmost match; [m.group()] is the
    matched text. *)
Fixpoint search_BK4 (s : string) : option string :=
  match match_BK4 s with
  | Some m => Some m
  | None =>
      match s with
      | EmptyString => None
      | String _ t => search_BK4 t
      end
  end.

End PyStr.

(** ** Python numbers read from and written to text *)

Module PyNum.
Import PyStr.

Definition digit_val (c : ascii) : Z := Z.of_N (ord c) - 48.

Definition digit_char (d : N) : ascii := ascii_of_N (48 + d).

(** The longest prefix [digit (["_"] digit)*] of [s]: its value on top of
    [acc], the number of digits read on top of [n], and what follows.
    [None] when [s] does not start with a digit. *)
Fixpoint digitpart (s : string) (acc : Z) (n : nat) : option (Z * nat * string) :=
  match s with
  | EmptyString => None
  | String d t =>
      if isdigit d then
        let acc' := (acc * 10 + digit_val d)%Z in
        match t with
        | EmptyString => Some (acc', S n, EmptyString)
        | String c t' =>
            match digitpart (if Stdlib.Strings.Ascii.eqb c "_" then t' else t) acc' (S n) with
            | Some r => Some r
            | None => Some (acc', S n, t)
            end
        end
      else None
  end.

(** An optional sign: whether it is [-], and the text after it. *)
Definition sign (s : string) : bool * string :=
  match s with
  | String c t =>
      if Stdlib.Strings.Ascii.eqb c "-" then (true, t)
      else if Stdlib.Strings.Ascii.eqb c "+" then (false, t)
      else (false, s)
  | EmptyString => (false, s)
  end.

(** The white space [int] and [float] skip at both ends of their
    argument on U+0000..U+00FF: TAB..CR, SPACE, NEL and NBSP, but not
    FS..US, which [str.strip] does skip. *)
Definition isspace_number (c : ascii) : bool :=
  isspace c && negb (in_range 28 31 (ord c)).

Fixpoint lstrip_number (s : string) : string :=
  match s with
  | EmptyString => EmptyString
  | String c t => if isspace_number c then lstrip_number t else s
  end.

Fixpoint rstrip_number (s : string) : string :=
  match s with
  | EmptyString => EmptyString
  | String c t =>
      match rstrip_number t with
      | EmptyString => if isspace_number c then EmptyString else String c EmptyString
      | r => String c r
      end
  end.

Definition strip_number (s : string) : string := rstrip_number (lstrip_number s).

(** [int(s)] in base ten; [None] is [ValueError]. *)
Definition int_of_str (s : string) : option Z :=
  let '(neg, body) := sign (strip_number s) in
  match digitpart body 0 0 with
  | Some (v, _, EmptyString) => Some (if neg then (- v)%Z else v)
  | _ => None
  end.

(** [str(n)] for [n >= 0], least significant digit first into [acc]. *)
Fixpoint str_N_aux (fuel : nat) (n : N) (acc : string) : string :=
  match fuel with
  | O => acc
  | S f =>
      let acc' := String (digit_char (n mod 10)) acc in
      if (n / 10 =? 0)%N then acc' else str_N_aux f (n / 10) acc'
  end.

(** A number below [2^k] has at most [k] digits. *)
Definition str_N (n : N) : string :=
  str_N_aux (S (N.to_nat (N.log2 n))) n EmptyString.

(** [str(z)] of a Python [int]. *)
Definition str_int (z : Z) : string :=
  if (z <? 0)%Z then String "-" (str_N (Z.abs_N z)) else str_N (Z.abs_N z).

(** A Python [float]: a binary64 number.  [Finite q] is the number [q],
    [Finite 0] is [0.0] and [NegZero] is [-0.0]. *)
Inductive pyfloat : Type :=
  | Finite (q : Q)
  | NegZero
  | Inf (negative : bool)
  | NaN.

Definition float_zero : pyfloat := Finite 0.

Definition signed_zero (neg : bool) : pyfloat := if neg then NegZero else Finite 0.

(** [n / d] rounded to the nearest integer, ties to even ([0 <= n], [0 < d]). *)
Definition round_half_even (n d : Z) : Z :=
  let q := (n / d)%Z in
  let r := (n mod d)%Z in
  if (2 * r <? d)%Z then q
  else if (d <? 2 * r)%Z then (q + 1)%Z
  else if Z.even q then q else (q + 1)%Z.

(** Whether [2^k <= num / den] ([0 < den]). *)
Definition at_least_pow2 (num den k : Z) : bool :=
  if (0 <=? k)%Z then (den * 2 ^ k <=? num)%Z else (den <=? num * 2 ^ (- k))%Z.

(** The binary64 number nearest to [num / den] ([0 < num], [0 < den]),
    ties to even: 53 significant bits, least exponent [-1022], and
    infinity from [2^1024] on. *)
Definition nearest_binary64 (neg : bool) (num den : Z) : pyfloat :=
  let a := (Z.log2 num - Z.log2 den)%Z in
  let e := if at_least_pow2 num den a then a else (a - 1)%Z in
  let ex := (Z.max e (-1022) - 52)%Z in
  let m :=
    if (0 <=? ex)%Z then round_half_even num (den * 2 ^ ex)
    else round_half_even (num * 2 ^ (- ex)) den in
  if (0 <=? ex)%Z && (2 ^ 1024 <=? m * 2 ^ ex)%Z then Inf neg
  else if (m =? 0)%Z then signed_zero neg
  else
    let sm := if neg then (- m)%Z else m in
    if (0 <=? ex)%Z then Finite (inject_Z (sm * 2 ^ ex))
    else Finite (Qred (Qmake sm (Z.to_pos (2 ^ (- ex))))).

(** The [float] written [m * 10^e], [m] being written with [digits]
    digits.  A number from [10^309] on is infinite and one below
    [10^(-400)] is zero whatever its digits are. *)
Definition decimal_float (neg : bool) (m e : Z) (digits : nat) : pyfloat :=
  if (m =? 0)%Z then signed_zero neg
  else if (309 <=? e)%Z then Inf neg
  else if (e + Z.of_nat digits <? -400)%Z then signed_zero neg
  else if (0 <=? e)%Z then nearest_binary64 neg (m * 10 ^ e) 1
  else nearest_binary64 neg m (10 ^ (- e)).

(** The optional exponent after a mantissa [m * 10^(-k)] written with
    [digits] digits. *)
Definition float_exponent (neg : bool) (m : Z) (k digits : nat) (r : string)
    : option pyfloat :=
  match r with
  | EmptyString => Some (decimal_float neg m (- Z.of_nat k) digits)
  | String e r' =>
      if Stdlib.Strings.Ascii.eqb e "e" || Stdlib.Strings.Ascii.eqb e "E" then
        let '(eneg, r'') := sign r' in
        match digitpart r'' 0 0 with
        | Some (x, _, EmptyString) =>
            Some (decimal_float neg m ((if eneg then - x else x) - Z.of_nat k) digits)
        | _ => None
        end
      else None
  end.

(** [float(s)]; [None] is [ValueError]. *)
Definition float_of_str (s : string) : option pyfloat :=
  let '(neg, body) := sign (strip_number s) in
  let lb := lower body in
  if Stdlib.Strings.String.eqb lb "inf" || Stdlib.Strings.String.eqb lb "infinity" then Some (Inf neg)
  else if Stdlib.Strings.String.eqb lb "nan" then Some NaN
  else
    match digitpart body 0 0 with
    | Some (i, ni, rest) =>
        match rest with
        | String c r1 =>
            if Stdlib.Strings.Ascii.eqb c "." then
              match digitpart r1 i 0 with
              | Some (m, k, r2) => float_exponent neg m k (ni + k) r2
              | None => float_exponent neg i 0 ni r1
              end
            else float_exponent neg i 0 ni rest
        | EmptyString => float_exponent neg i 0 ni rest
        end
    | None =>
        match body with
        | String c r1 =>
            if Stdlib.Strings.Ascii.eqb c "." then
              match digitpart r1 0 0 with
              | Some (m, k, r2) => float_exponent neg m k k r2
              | None => None
              end
            else None
        | EmptyString => None
        end
    end.

End PyNum.

(** ** Text of the exceptions of the built-ins *)

Module PyExn.
Import PyStr.

Definition hex_digit (n : N) : ascii :=
  if (n <? 10)%N then ascii_of_N (48 + n) else ascii_of_N (87 + n).

(** [str.isprintable] on one character of U+0000..U+00FF. *)
Definition isprintable (c : ascii) : bool :=
  let n := ord c in
  in_range 32 126 n || (in_range 161 255 n && negb (n =? 173)%N).

Definition dquote : ascii := ascii_of_N 34.
Definition backslash : ascii := ascii_of_N 92.

Fixpoint has_char (x : ascii) (s : string) : bool :=
  match s with
  | EmptyString => false
  | String c t => Stdlib.Strings.Ascii.eqb c x || has_char x t
  end.

Fixpoint repr_body (quote : ascii) (s : string) : string :=
  match s with
  | EmptyString => String quote EmptyString
  | String c t =>
      let n := ord c in
      let rest := repr_body quote t in
      if Stdlib.Strings.Ascii.eqb c quote || Stdlib.Strings.Ascii.eqb c backslash
      then String backslash (String c rest)
      else if (n =? 9)%N then String backslash (String "t" rest)
      else if (n =? 10)%N then String backslash (String "n" rest)
      else if (n =? 13)%N then String backslash (String "r" rest)
      else if isprintable c then String c rest
      else String backslash (String "x" (String (hex_digit (n / 16)) (String (hex_digit (n mod 16)) rest)))
  end.

(** [repr(s)] of a [str]. *)
Definition repr (s : string) : string :=
  let quote : ascii :=
    if has_char "'" s && negb (has_char dquote s) then dquote else "'"%char in
  String quote (repr_body quote s).

Definition IndexError : string := "list index out of range".

(** The first [n] characters of [s]. *)
Fixpoint truncate (n : nat) (s : string) : string :=
  match n, s with
  | S n', String c t => String c (truncate n' t)
  | _, _ => EmptyString
  end.

(** The text of the [ValueError] of [int]: the [repr] is cut to 200
    characters. *)
Definition ValueError_int (s : string) : string :=
  "invalid literal for int() with base 10: " ++ truncate 200 (repr s).

Definition ValueError_float (s : string) : string :=
  "could not convert string to float: " ++ repr s.

End PyExn.

(** ** Data of the REST layer *)

(** A stored booking is a dictionary of text fields: [create_booking] hands
    every field over as text ([guests] as [str(...)]), and the status and
    the time stamps the manager adds are text as well.  A key may be
    absent. *)
Abbreviation details := (gmap string string).

(** [BookingManager.bookings]: a dictionary from identifier to booking,
    iterated in insertion order. *)
Abbreviation ledger := (list (string * details)).

Notation "a =s? b" := (Stdlib.Strings.String.eqb a b) (at level 70).

(** [d.get(key, '')]. *)
Definition get_str (d : details) (key : string) : string := default "" (d !! key).

(** [bookings.get(booking_id)], also [bookings[booking_id]] behind a
    membership test. *)
Fixpoint ledger_get (booking_id : string) (l : ledger) : option details :=
  match l with
  | [] => None
  | (k, d) :: r => if k =s? booking_id then Some d else ledger_get booking_id r
  end.

(** The truth value of an optional text: [None] and [''] are false. *)
Definition truthy (o : option string) : bool :=
  match o with
  | Some s => negb (s =s? "")
  | None => false
  end.

(** A call that returns or raises [Exception]; [err] is [str(e)]. *)
Inductive outcome (A : Type) : Type :=
  | Returned (a : A)
  | Raised (err : string).
Arguments Returned {A} a.
Arguments Raised {A} err.

Inductive str_or_int : Type :=
  | Str (s : string)
  | Int (z : Z).

Module BookingRequest.
Record t : Type := {
  name : string;
  contact : string;
  date : string;
  time : string;
  guests : Z;
  special_requirements : option string }.
End BookingRequest.

(** Fields a constructor call leaves out are [None]. *)
Module BookingResponse.
Record t : Type := {
  booking_id : option string;
  success : bool;
  message : string;
  booking_data : option details;
  error : option string }.
End BookingResponse.

Module BookingDetails.
Record t : Type := {
  booking_id : string;
  name : string;
  contact : string;
  date : string;
  time : string;
  guests : str_or_int;
  special_requirements : string;
  status : string;
  created_at : string;
  modified_at : option string;
  cancelled_at : option string }.
End BookingDetails.

Module BookingListResponse.
Record t : Type := {
  bookings : list BookingDetails.t;
  total_count : nat;
  success : option bool;
  error : option string }.
End BookingListResponse.

Module StatsResponse.
Record t : Type := {
  total_bookings : Z;
  confirmed_bookings : Z;
  cancelled_bookings : Z;
  total_guests : Z;
  today_bookings : Z;
  success_rate : PyNum.pyfloat;
  success : option bool;
  error : option string }.
End StatsResponse.

Module ChatRequest.
Record t : Type := {
  message : string;
  session_id : option string;
  user_id : option string }.
End ChatRequest.

Module ChatResponse.
Record t : Type := {
  response : string;
  session_id : option string;
  success : bool;
  error : option string }.
End ChatResponse.

(** An entry of the module-level [sessions] dictionary. *)
Module Session.
Record t : Type := {
  created_at : Z;
  message_count : Z;
  last_activity : option Z }.
End Session.

(** What [track_event] and [track_error] are told. *)
Inductive event : Type :=
  | ChatRequestEvent (session_id : string) (message_length : nat) (has_user_id : bool).

Inductive error_context : Type :=
  | ChatContext (session_id user_id : option string)
  | CreateBookingContext (request : BookingRequest.t)
  | ListBookingsContext
  | GetBookingContext (booking_id : string)
  | CancelBookingContext (booking_id : string)
  | SearchBookingsContext (query : string)
  | GetStatsContext.

(** ** The collaborators of the REST layer

    [BookingManager], [MonitoringManager], the clock and the UUID source
    live outside [api.py]; [env] is their joint state.  A clock reading is
    an integer. *)
Class Bot (env : Type) : Type := {
  bookings : env -> ledger;
  manager_create_booking : details -> env -> outcome string * env;
  manager_cancel_booking : string -> env -> outcome string * env;
  manager_search_bookings : string -> env -> outcome string * env;
  manager_get_booking_stats : env -> outcome string * env;
  manager_process_user_input : string -> env -> outcome string * env;
  track_event : event -> env -> outcome unit * env;
  track_error : string -> error_context -> env -> outcome unit * env;
  uuid4 : env -> string * env;
  datetime_now : env -> Z * env }.

(** The state a request runs in. *)
Record world (env : Type) : Type := World {
  bot : env;
  sessions : gmap string Session.t }.
Arguments World {env} bot sessions.
Arguments bot {env} w.
Arguments sessions {env} w.

(** ** Computations that thread the state and may raise *)

Definition py (env A : Type) : Type := world env -> outcome A * world env.

Definition ret {env A} (a : A) : py env A := fun w => (Returned a, w).

Definition bind {env A B} (m : py env A) (f : A -> py env B) : py env B :=
  fun w =>
    match m w with
    | (Returned a, w') => f a w'
    | (Raised err, w') => (Raised err, w')
    end.

(** [try: body  except Exception as e: handler(e)]. *)
Definition try_except {env A} (body : py env A) (handler : string -> py env A) : py env A :=
  fun w =>
    match body w with
    | (Returned a, w') => (Returned a, w')
    | (Raised err, w') => handler err w'
    end.

(** A call into a collaborator. *)
Definition call {env A} (f : env -> outcome A * env) : py env A :=
  fun w => let '(r, b) := f (bot w) in (r, World b (sessions w)).

(** A call into a collaborator that cannot raise. *)
Definition ask {env A} (f : env -> A * env) : py env A :=
  fun w => let '(a, b) := f (bot w) in (Returned a, World b (sessions w)).

(** A pure step that may raise. *)
Definition lift {env A} (r : outcome A) : py env A := fun w => (r, w).

Definition read_sessions {env} : py env (gmap string Session.t) :=
  fun w => (Returned (sessions w), w).

Definition write_sessions {env} (s : gmap string Session.t) : py env unit :=
  fun w => (Returned tt, World (bot w) s).

#[global] Instance py_ret {env} : MRet (py env) := @ret env.
#[global] Instance py_bind {env} : MBind (py env) := fun A B f m => bind m f.

(** Pure steps that may raise. *)
Definition obind {A B} (r : outcome A) (f : A -> outcome B) : outcome B :=
  match r with
  | Returned a => f a
  | Raised err => Raised err
  end.

(** [l[i]]. *)
Definition index {A} (l : list A) (i : nat) : outcome A :=
  match l !! i with
  | Some x => Returned x
  | None => Raised PyExn.IndexError
  end.

(** [l[-1]]. *)
Definition index_last {A} (l : list A) : outcome A :=
  match last l with
  | Some x => Returned x
  | None => Raised PyExn.IndexError
  end.

(** [int(s)]. *)
Definition py_int (s : string) : outcome Z :=
  match PyNum.int_of_str s with
  | Some z => Returned z
  | None => Raised (PyExn.ValueError_int s)
  end.

(** [float(s)]. *)
Definition py_float (s : string) : outcome PyNum.pyfloat :=
  match PyNum.float_of_str s with
  | Some x => Returned x
  | None => Raised (PyExn.ValueError_float s)
  end.

(** [for x in l: s = f(s, x)], left at the first exception. *)
Fixpoint for_each {A S} (f : S -> A -> outcome S) (l : list A) (s : S) : outcome S :=
  match l with
  | [] => Returned s
  | x :: r =>
      match f s x with
      | Returned s' => for_each f r s'
      | Raised err => Raised err
      end
  end.

Definition newline : ascii := ascii_of_N 10.

(** ** The endpoints of [api.py]

    An endpoint receives the collaborators through the state it runs in;
    their construction by [get_bot] happens before the endpoint is
    entered and is not part of it. *)

Section Endpoints.
Context {env : Type} `{Bot env}.
Import PyStr.

(** [bot['booking_manager'].bookings]. *)
Definition read_bookings : py env ledger :=
  fun w => (Returned (bookings (bot w)), w).

(** The [BookingDetails(...)] built from an entry of the ledger. *)
Definition booking_details (booking_id : string) (d : details) : BookingDetails.t :=
  {| BookingDetails.booking_id := booking_id;
     BookingDetails.name := get_str d "name";
     BookingDetails.contact := get_str d "contact";
     BookingDetails.date := get_str d "date";
     BookingDetails.time := get_str d "time";
     BookingDetails.guests :=
       match d !! "guests" with Some g => Str g | None => Int 0 end;
     BookingDetails.special_requirements := get_str d "special_requirements";
     BookingDetails.status := get_str d "status";
     BookingDetails.created_at := get_str d "created_at";
     BookingDetails.modified_at := d !! "modified_at";
     BookingDetails.cancelled_at := d !! "cancelled_at" |}.

(** *** POST /chat *)

Definition apology : string :=
  "I'm sorry, I encountered an error processing your request. Please try again.".

(** The body of the [try] block. *)
Definition chat_body (request : ChatRequest.t) : py env ChatResponse.t :=
  session_id ←
    (if truthy (ChatRequest.session_id request)
     then mret (default "" (ChatRequest.session_id request))
     else ask uuid4);
  call (track_event
          (ChatRequestEvent session_id
             (String.length (ChatRequest.message request))
             (truthy (ChatRequest.user_id request))));;
  response_text ← call (manager_process_user_input (ChatRequest.message request));
  known ← read_sessions;
  entry ←
    match known !! session_id with
    | Some e => mret e
    | None =>
        t ← ask datetime_now;
        mret {| Session.created_at := t;
                Session.message_count := 0;
                Session.last_activity := None |}
    end;
  t' ← ask datetime_now;
  write_sessions
    (<[session_id :=
         {| Session.created_at := Session.created_at entry;
            Session.message_count := (Session.message_count entry + 1)%Z;
            Session.last_activity := Some t' |}]> known);;
  mret {| ChatResponse.response := response_text;
          ChatResponse.session_id := Some session_id;
          ChatResponse.success := true;
          ChatResponse.error := None |}.

(** The [except Exception as e] block. *)
Definition chat_handler (request : ChatRequest.t) (e : string) : py env ChatResponse.t :=
  call (track_error e
          (ChatContext (ChatRequest.session_id request)
             (ChatRequest.user_id request)));;
  mret {| ChatResponse.response := apology;
          ChatResponse.session_id := ChatRequest.session_id request;
          ChatResponse.success := false;
          ChatResponse.error := Some e |}.

Definition chat_with_bot (request : ChatRequest.t) : py env ChatResponse.t :=
  try_except (chat_body request) (chat_handler request).

(** *** POST /bookings *)

(** The dictionary handed to [BookingManager.create_booking]. *)
Definition booking_data_of (request : BookingRequest.t) : details :=
  <["name" := BookingRequest.name request]>
  (<["contact" := BookingRequest.contact request]>
  (<["date" := BookingRequest.date request]>
  (<["time" := BookingRequest.time request]>
  (<["guests" := PyNum.str_int (BookingRequest.guests request)]>
  (<["special_requirements" :=
       if truthy (BookingRequest.special_requirements request)
       then default "" (BookingRequest.special_requirements request)
       else ""]> ∅))))).

(** The response built from the text [result] of the manager and the
    ledger [l] as the manager left it. *)
Definition created_response (result : string) (l : ledger) : BookingResponse.t :=
  let booking_id :=
    if contains "Booking created successfully" result
    then search_BK4 result
    else None in
  {| BookingResponse.booking_id := booking_id;
     BookingResponse.success := contains "Booking created successfully" result;
     BookingResponse.message := result;
     BookingResponse.booking_data :=
       match booking_id with
       | Some i => ledger_get i l
       | None => None
       end;
     BookingResponse.error := None |}.

Definition create_booking (request : BookingRequest.t) : py env BookingResponse.t :=
  try_except
    (let booking_data := booking_data_of request in
     result ← call (manager_create_booking booking_data);
     l ← read_bookings;
     mret (created_response result l))
    (fun e =>
       call (track_error e (CreateBookingContext request));;
       mret {| BookingResponse.booking_id := None;
               BookingResponse.success := false;
               BookingResponse.message := "Error creating booking: " ++ e;
               BookingResponse.booking_data := None;
               BookingResponse.error := Some e |}).

(** *** GET /bookings *)

(** One round of the loop over [bookings_dict.items()]. *)
Definition list_step (status date : option string)
    (acc : list BookingDetails.t) (item : string * details) : list BookingDetails.t :=
  let '(booking_id, d) := item in
  if truthy status &&
     negb (lower (get_str d "status") =s? lower (default "" status))
  then acc
  else if truthy date && negb (get_str d "date" =s? default "" date)
  then acc
  else acc ++ [booking_details booking_id d].

Definition list_bookings (status date : option string) : py env BookingListResponse.t :=
  try_except
    (bookings_dict ← read_bookings;
     let found := fold_left (list_step status date) bookings_dict [] in
     mret {| BookingListResponse.bookings := found;
             BookingListResponse.total_count := length found;
             BookingListResponse.success := None;
             BookingListResponse.error := None |})
    (fun e =>
       call (track_error e ListBookingsContext);;
       mret {| BookingListResponse.bookings := [];
               BookingListResponse.total_count := 0;
               BookingListResponse.success := Some false;
               BookingListResponse.error := Some e |}).

(** *** GET /bookings/{booking_id} *)

Definition get_booking (booking_id : string) : py env BookingResponse.t :=
  try_except
    (l ← read_bookings;
     match ledger_get booking_id l with
     | None =>
         mret {| BookingResponse.booking_id := None;
                 BookingResponse.success := false;
                 BookingResponse.message := "Booking " ++ booking_id ++ " not found";
                 BookingResponse.booking_data := None;
                 BookingResponse.error := Some "Booking not found" |}
     | Some d =>
         mret {| BookingResponse.booking_id := Some booking_id;
                 BookingResponse.success := true;
                 BookingResponse.message := "Booking details retrieved successfully";
                 BookingResponse.booking_data := Some d;
                 BookingResponse.error := None |}
     end)
    (fun e =>
       call (track_error e (GetBookingContext booking_id));;
       mret {| BookingResponse.booking_id := None;
               BookingResponse.success := false;
               BookingResponse.message := "Error retrieving booking: " ++ e;
               BookingResponse.booking_data := None;
               BookingResponse.error := Some e |}).

(** *** DELETE /bookings/{booking_id} *)

Definition cancelled_response (booking_id result : string) : BookingResponse.t :=
  {| BookingResponse.booking_id := Some booking_id;
     BookingResponse.success := contains "cancelled successfully" (lower result);
     BookingResponse.message := result;
     BookingResponse.booking_data := None;
     BookingResponse.error := None |}.

Definition cancel_booking (booking_id : string) : py env BookingResponse.t :=
  try_except
    (result ← call (manager_cancel_booking booking_id);
     mret (cancelled_response booking_id result))
    (fun e =>
       call (track_error e (CancelBookingContext booking_id));;
       mret {| BookingResponse.booking_id := None;
               BookingResponse.success := false;
               BookingResponse.message := "Error cancelling booking: " ++ e;
               BookingResponse.booking_data := None;
               BookingResponse.error := Some e |}).

(** *** POST /bookings/search *)

(** One round of the loop over the lines of the manager's text; [l] is the
    ledger as the manager left it. *)
Definition search_line (l : ledger)
    (acc : list BookingDetails.t) (line : string) : outcome (list BookingDetails.t) :=
  if negb (strip line =s? "") && contains ":" line then
    obind (index (split_on ":" line) 0) (fun head =>
    obind (index_last (split_ws head)) (fun booking_id =>
      match ledger_get booking_id l with
      | Some d => Returned (acc ++ [booking_details booking_id d])
      | None => Returned acc
      end))
  else Returned acc.

Definition found_bookings (result : string) (l : ledger) : outcome (list BookingDetails.t) :=
  if contains "Search Results" result
  then for_each (search_line l) (tail (split_on newline result)) []
  else Returned [].

Definition search_bookings (query : string) : py env BookingListResponse.t :=
  try_except
    (result ← call (manager_search_bookings query);
     l ← read_bookings;
     found ← lift (found_bookings result l);
     mret {| BookingListResponse.bookings := found;
             BookingListResponse.total_count := length found;
             BookingListResponse.success := None;
             BookingListResponse.error := None |})
    (fun e =>
       call (track_error e (SearchBookingsContext query));;
       mret {| BookingListResponse.bookings := [];
               BookingListResponse.total_count := 0;
               BookingListResponse.success := Some false;
               BookingListResponse.error := Some e |}).

(** *** GET /stats *)

(** The local dictionary [stats]. *)
Record stats_dict : Type := {
  total_bookings : Z;
  confirmed_bookings : Z;
  cancelled_bookings : Z;
  total_guests : Z;
  today_bookings : Z;
  success_rate : PyNum.pyfloat }.

Definition stats_zero : stats_dict :=
  {| total_bookings := 0; confirmed_bookings := 0; cancelled_bookings := 0;
     total_guests := 0; today_bookings := 0; success_rate := PyNum.float_zero |}.

(** [line.split(':')[1]]. *)
Definition after_colon (line : string) : outcome string := index (split_on ":" line) 1.

(** [int(line.split(':')[1].strip())]. *)
Definition int_after_colon (line : string) : outcome Z :=
  obind (after_colon line) (fun v => py_int (strip v)).

(** [int(line.split(':')[1].split()[0])]. *)
Definition first_int_after_colon (line : string) : outcome Z :=
  obind (after_colon line) (fun v => obind (index (split_ws v) 0) py_int).

(** [float(line.split(':')[1].strip().replace('%', ''))]. *)
Definition float_after_colon (line : string) : outcome PyNum.pyfloat :=
  obind (after_colon line) (fun v => py_float (remove_char "%" (strip v))).

(** One round of the loop over the lines of the manager's text. *)
Definition stats_line (stats : stats_dict) (line : string) : outcome stats_dict :=
  if contains "Total Bookings:" line then
    obind (int_after_colon line) (fun v =>
      Returned {| total_bookings := v;
                  confirmed_bookings := confirmed_bookings stats;
                  cancelled_bookings := cancelled_bookings stats;
                  total_guests := total_guests stats;
                  today_bookings := today_bookings stats;
                  success_rate := success_rate stats |})
  else if contains "Confirmed:" line then
    obind (first_int_after_colon line) (fun v =>
      Returned {| total_bookings := total_bookings stats;
                  confirmed_bookings := v;
                  cancelled_bookings := cancelled_bookings stats;
                  total_guests := total_guests stats;
                  today_bookings := today_bookings stats;
                  success_rate := success_rate stats |})
  else if contains "Cancelled:" line then
    obind (first_int_after_colon line) (fun v =>
      Returned {| total_bookings := total_bookings stats;
                  confirmed_bookings := confirmed_bookings stats;
                  cancelled_bookings := v;
                  total_guests := total_guests stats;
                  today_bookings := today_bookings stats;
                  success_rate := success_rate stats |})
  else if contains "Total Guests" line then
    obind (int_after_colon line) (fun v =>
      Returned {| total_bookings := total_bookings stats;
                  confirmed_bookings := confirmed_bookings stats;
                  cancelled_bookings := cancelled_bookings stats;
                  total_guests := v;
                  today_bookings := today_bookings stats;
                  success_rate := success_rate stats |})
  else if contains "Today's Bookings:" line then
    obind (int_after_colon line) (fun v =>
      Returned {| total_bookings := total_bookings stats;
                  confirmed_bookings := confirmed_bookings stats;
                  cancelled_bookings := cancelled_bookings stats;
                  total_guests := total_guests stats;
                  today_bookings := v;
                  success_rate := success_rate stats |})
  else if contains "Success Rate:" line then
    obind (float_after_colon line) (fun v =>
      Returned {| total_bookings := total_bookings stats;
                  confirmed_bookings := confirmed_bookings stats;
                  cancelled_bookings := cancelled_bookings stats;
                  total_guests := total_guests stats;
                  today_bookings := today_bookings stats;
                  success_rate := v |})
  else Returned stats.

(** The dictionary [stats] after the text [result] has been read. *)
Definition parsed_stats (result : string) : outcome stats_dict :=
  if contains "Booking Statistics" result
  then for_each stats_line (tail (split_on newline result)) stats_zero
  else Returned stats_zero.

(** The [StatsResponse] whose fields are the entries of [stats]. *)
Definition stats_response (stats : stats_dict) : StatsResponse.t :=
  {| StatsResponse.total_bookings := total_bookings stats;
     StatsResponse.confirmed_bookings := confirmed_bookings stats;
     StatsResponse.cancelled_bookings := cancelled_bookings stats;
     StatsResponse.total_guests := total_guests stats;
     StatsResponse.today_bookings := today_bookings stats;
     StatsResponse.success_rate := success_rate stats;
     StatsResponse.success := None;
     StatsResponse.error := None |}.

Definition get_stats : py env StatsResponse.t :=
  try_except
    (result ← call manager_get_booking_stats;
     stats ← lift (parsed_stats result);
     mret (stats_response stats))
    (fun e =>
       call (track_error e GetStatsContext);;
       mret {| StatsResponse.total_bookings := 0;
               StatsResponse.confirmed_bookings := 0;
               StatsResponse.cancelled_bookings := 0;
               StatsResponse.total_guests := 0;
               StatsResponse.today_bookings := 0;
               StatsResponse.success_rate := PyNum.float_zero;
               StatsResponse.success := Some false;
               StatsResponse.error := Some e |}).

End Endpoints.

(** ** A scripted collaborator

    A stand-in for the collaborators: the manager answers every call with
    the text (or exception) it was given and leaves its ledger alone; the
    two monitoring calls end as scripted. *)
Module Scripted.

Record t : Type := {
  ledger_of : ledger;
  reply : outcome string;
  event_tracking : outcome unit;
  error_tracking : outcome unit }.

#[global] Instance bot : Bot t := {|
  bookings := ledger_of;
  manager_create_booking := fun _ e => (reply e, e);
  manager_cancel_booking := fun _ e => (reply e, e);
  manager_search_bookings := fun _ e => (reply e, e);
  manager_get_booking_stats := fun e => (reply e, e);
  manager_process_user_input := fun _ e => (reply e, e);
  track_event := fun _ e => (event_tracking e, e);
  track_error := fun _ _ e => (error_tracking e, e);
  uuid4 := fun e => ("00000000-0000-4000-8000-000000000000", e);
  datetime_now := fun e => (0%Z, e) |}.

Definition answering (l : ledger) (text : string) : world t :=
  World {| ledger_of := l; reply := Returned text;
           event_tracking := Returned tt; error_tracking := Returned tt |} ∅.

Definition failing (l : ledger) (err : string) : world t :=
  World {| ledger_of := l; reply := Raised err;
           event_tracking := Returned tt; error_tracking := Returned tt |} ∅.

End Scripted.

(** ** The ledger and the query engine of the design

    [BookingManager] is not part of [api.py]; the operations below follow
    sections 3 and 4.3 of the design. *)
Module Design.
Import PyStr.

Inductive status : Type := confirmed | cancelled.

(** Modelled from the spec: the Booking record of section 3; a time stamp
    is an integer. *)
Record Booking : Type := {
  id : string;
  name : string;
  contact : string;
  date : string;
  time : string;
  guests : Z;
  special_requirements : string;
  booking_status : status;
  created_at : Z;
  modified_at : option Z;
  cancelled_at : option Z }.

Definition is_confirmed (b : Booking) : bool :=
  match booking_status b with confirmed => true | cancelled => false end.

(** Modelled from the spec: the match of [search] in section 4.3, a
    case-insensitive substring test of the query against [name],
    [contact], [date], [time] and [special_requirements]. *)
Definition field_matches (query : string) (b : Booking) : bool :=
  let q := lower query in
  contains q (lower (name b)) ||
  contains q (lower (contact b)) ||
  contains q (lower (date b)) ||
  contains q (lower (time b)) ||
  contains q (lower (special_requirements b)).

(** Modelled from the spec: [search] of section 4.3, which
    [BookingManager.search_bookings] stands for; matches in insertion
    order, and nothing for the empty query. *)
Definition search (query : string) (l : list Booking) : list Booking :=
  if query =s? "" then [] else List.filter (field_matches query) l.

(** [a / b] on Python numbers; division by zero raises. *)
Definition truediv (a b : Z) : outcome Q :=
  if (b =? 0)%Z then Raised "division by zero"
  else Returned (inject_Z a / inject_Z b)%Q.

Record Statistics : Type := {
  total : Z;
  confirmed_count : Z;
  cancelled_count : Z;
  total_guests : Z;
  today_count : Z;
  success_rate : Q }.

Definition count (p : Booking -> bool) (l : list Booking) : Z :=
  Z.of_nat (length (List.filter p l)).

(** [confirmed_count / total * 100], as it stands. *)
Definition rate (confirmed_count total : Z) : outcome Q :=
  obind (truediv confirmed_count total) (fun q => Returned (q * 100)%Q).

(** Modelled from the spec: [stats] of section 4.3, which
    [BookingManager.get_booking_stats] stands for; [today] is the current
    calendar date, and the rate is exact. *)
Definition stats (today : string) (l : list Booking) : outcome Statistics :=
  let total := Z.of_nat (length l) in
  let confirmed_count := count is_confirmed l in
  obind (if (total =? 0)%Z then Returned 0%Q else rate confirmed_count total)
    (fun success_rate =>
       Returned
         {| total := total;
            confirmed_count := confirmed_count;
            cancelled_count := count (fun b => negb (is_confirmed b)) l;
            total_guests :=
              fold_left Z.add (List.map guests (List.filter is_confirmed l)) 0%Z;
            today_count := count (fun b => date b =s? today) l;
            success_rate := success_rate |}).

End Design.

(** ** Vocabulary of the statements *)

(** [needle] occurs in [hay] as a substring. *)
Definition occurs_in (needle hay : string) : Prop :=
  exists pre post : string, hay = (pre ++ needle ++ post)%string.

Fixpoint all_digits (s : string) : bool :=
  match s with
  | EmptyString => true
  | String c t => PyStr.isdigit c && all_digits t
  end.

(** No character of [s] satisfies [p]. *)
Fixpoint none_of (p : ascii -> bool) (s : string) : bool :=
  match s with
  | EmptyString => true
  | String c t => negb (p c) && none_of p t
  end.

(** The number a run of digits denotes, on top of [acc]. *)
Fixpoint digits_value (s : string) (acc : Z) : Z :=
  match s with
  | EmptyString => acc
  | String c t => digits_value t (acc * 10 + PyNum.digit_val c)
  end.

(** [i] is [BK] followed by four digits. *)
Definition BK4 (i : string) : Prop :=
  exists d : string,
    i = ("BK" ++ d)%string /\ String.length d = 4 /\ all_digits d = true.

(** [m] is the leftmost substring of [s] of the form [BK] and four digits. *)
Definition leftmost_BK4 (s m : string) : Prop :=
  exists pre post : string,
    s = (pre ++ m ++ post)%string /\ BK4 m /\
    forall pre' m' post' : string,
      s = (pre' ++ m' ++ post')%string -> BK4 m' ->
      String.length pre <= String.length pre'.

(** The bookings a pair of filters asks for: a filter counts as supplied
    when it is given and not empty; the status is compared without regard
    to case, the date as it is. *)
Definition selected (status date : option string) (item : string * details) : bool :=
  (if truthy status
   then PyStr.lower (get_str (snd item) "status") =s? PyStr.lower (default "" status)
   else true) &&
  (if truthy date
   then get_str (snd item) "date" =s? default "" date
   else true).

(** Runs of an endpoint that differ in nothing but the wording of the
    manager's reply. *)
Definition cancel_success_ignores_wording : Prop :=
  forall (booking_id : string) (l : ledger) (text1 text2 : string)
         (r1 r2 : BookingResponse.t),
    fst (cancel_booking booking_id (Scripted.answering l text1)) = Returned r1 ->
    fst (cancel_booking booking_id (Scripted.answering l text2)) = Returned r2 ->
    BookingResponse.success r1 = BookingResponse.success r2.

Definition created_id_ignores_wording : Prop :=
  forall (request : BookingRequest.t) (l : ledger) (text1 text2 : string)
         (r1 r2 : BookingResponse.t),
    fst (create_booking request (Scripted.answering l text1)) = Returned r1 ->
    fst (create_booking request (Scripted.answering l text2)) = Returned r2 ->
    BookingResponse.success r1 = true ->
    BookingResponse.success r2 = true ->
    BookingResponse.booking_id r1 = BookingResponse.booking_id r2.

Definition stats_ignore_wording : Prop :=
  forall (l : ledger) (text1 text2 : string),
    fst (get_stats (Scripted.answering l text1)) =
    fst (get_stats (Scripted.answering l text2)).

(** Every error the [try] block of [chat_with_bot] raises ends as the
    apology, whatever the collaborators do. *)
Definition chat_errors_never_escape : Prop :=
  forall (env : Type) (B : Bot env) (request : ChatRequest.t)
         (w w1 : world env) (e : string),
    chat_body request w = (Raised e, w1) ->
    exists w' : world env,
      chat_with_bot request w =
      (Returned {| ChatResponse.response := apology;
                   ChatResponse.session_id := ChatRequest.session_id request;
                   ChatResponse.success := false;
                   ChatResponse.error := Some e |}, w').

(** A manager that records what [create_booking] hands over. *)
Module Recording.

#[global] Instance bot : Bot (list details) := {|
  bookings := fun _ => [];
  manager_create_booking := fun d log => (Returned "recorded", log ++ [d]);
  manager_cancel_booking := fun _ log => (Returned "", log);
  manager_search_bookings := fun _ log => (Returned "", log);
  manager_get_booking_stats := fun log => (Returned "", log);
  manager_process_user_input := fun _ log => (Returned "", log);
  track_event := fun _ log => (Returned tt, log);
  track_error := fun _ _ log => (Returned tt, log);
  uuid4 := fun log => ("", log);
  datetime_now := fun log => (0%Z, log) |}.

End Recording.

(** A text of the shape [get_stats] reads: the header and one labelled
    line for each of the five counts. *)
Definition stats_text (total confirmed cancelled guests today : N) : string :=
  ("Booking Statistics" ++ String newline
     ("Total Bookings: " ++ PyNum.str_N total ++ String newline
     ("Confirmed: " ++ PyNum.str_N confirmed ++ String newline
     ("Cancelled: " ++ PyNum.str_N cancelled ++ String newline
     ("Total Guests: " ++ PyNum.str_N guests ++ String newline
     ("Today's Bookings: " ++ PyNum.str_N today))))))%string.

(** ** The life cycle of the bot: [get_bot], [root] and [health_check] *)

Module Lifecycle.

Module HealthResponse.
Record t : Type := {
  status : string;
  services : gmap string string }.
End HealthResponse.

(** What a call ends with when it may raise [HTTPException]. *)
Inductive answer (A : Type) : Type :=
  | Ok (a : A)
  | HTTPException (status_code : Z) (detail : string).
Arguments Ok {A} a.
Arguments HTTPException {A} status_code detail.

(** The classes [get_bot] instantiates live outside [api.py]; [outside] is
    the state their constructors and attributes work on.  [api_key_set] is
    the truth value of [bot['ai_service'].openai_config['api_key']],
    [monitoring_set] the one of [bot['monitoring']], and
    [str_HTTPException] the text [str(e)] of an [HTTPException]. *)
Class Services (outside : Type) : Type := {
  config : Type;
  monitoring : Type;
  booking_manager : Type;
  ai_service : Type;
  Config : outside -> outcome config * outside;
  MonitoringManager : outside -> outcome monitoring * outside;
  BookingManager : monitoring -> outside -> outcome booking_manager * outside;
  AIService : config -> monitoring -> outside -> outcome ai_service * outside;
  api_key_set : ai_service -> outside -> outcome bool * outside;
  monitoring_set : monitoring -> outside -> outcome bool * outside;
  str_HTTPException : Z -> string -> string }.

Section GetBot.
Context {outside : Type} `{Services outside}.

(** The dictionary stored in [bot_instance]. *)
Record instance : Type := {
  the_config : config;
  the_monitoring : monitoring;
  the_booking_manager : booking_manager;
  the_ai_service : ai_service }.

(** The module-level [bot_instance] and the state outside. *)
Record process : Type := {
  bot_instance : option instance;
  outside_state : outside }.

(** The body of the [try] block of [get_bot]: the four constructors in
    the order the statements and the dictionary display run them. *)
Definition build (o : outside) : outcome instance * outside :=
  match Config o with
  | (Raised e, o1) => (Raised e, o1)
  | (Returned c, o1) =>
      match MonitoringManager o1 with
      | (Raised e, o2) => (Raised e, o2)
      | (Returned m, o2) =>
          match BookingManager m o2 with
          | (Raised e, o3) => (Raised e, o3)
          | (Returned bm, o3) =>
              match AIService c m o3 with
              | (Raised e, o4) => (Raised e, o4)
              | (Returned ai, o4) =>
                  (Returned {| the_config := c; the_monitoring := m;
                               the_booking_manager := bm; the_ai_service := ai |},
                   o4)
              end
          end
      end
  end.

Definition get_bot (p : process) : answer instance * process :=
  match bot_instance p with
  | Some b => (Ok b, p)
  | None =>
      match build (outside_state p) with
      | (Returned b, o) =>
          (Ok b, {| bot_instance := Some b; outside_state := o |})
      | (Raised e, o) =>
          (HTTPException 500 ("Failed to initialize bot: " ++ e),
           {| bot_instance := None; outside_state := o |})
      end
  end.

(** GET / *)
Definition root (p : process) : HealthResponse.t * process :=
  ({| HealthResponse.status := "healthy";
      HealthResponse.services :=
        <["api" := "running"]>
        (<["bot" := match bot_instance p with
                    | Some _ => "initialized"
                    | None => "not_initialized"
                    end]> ∅) |}, p).

Definition unhealthy (err : string) : HealthResponse.t :=
  {| HealthResponse.status := "unhealthy";
     HealthResponse.services :=
       <["api" := "running"]> (<["bot" := "error"]> (<["error" := err]> ∅)) |}.

(** GET /health *)
Definition health_check (p : process) : HealthResponse.t * process :=
  match get_bot p with
  | (HTTPException status_code detail, p1) =>
      (unhealthy (str_HTTPException status_code detail), p1)
  | (Ok b, p1) =>
      match api_key_set (the_ai_service b) (outside_state p1) with
      | (Raised e, o2) =>
          (unhealthy e, {| bot_instance := bot_instance p1; outside_state := o2 |})
      | (Returned key, o2) =>
          match monitoring_set (the_monitoring b) o2 with
          | (Raised e, o3) =>
              (unhealthy e, {| bot_instance := bot_instance p1; outside_state := o3 |})
          | (Returned mon, o3) =>
              ({| HealthResponse.status := "healthy";
                  HealthResponse.services :=
                    <["api" := "running"]>
                    (<["bot" := "initialized"]>
                    (<["openai" := if key then "connected" else "not_configured"]>
                    (<["monitoring" := if mon then "enabled" else "disabled"]> ∅))) |},
               {| bot_instance := bot_instance p1; outside_state := o3 |})
          end
      end
  end.

End GetBot.

(** Services whose constructors end as scripted: each constructor
    returns, or raises the text given for it. *)
Module Scripted.

Record t : Type := {
  config_error : option string;
  monitoring_error : option string;
  manager_error : option string;
  ai_error : option string;
  key : outcome bool }.

Definition ends (e : option string) : outcome unit :=
  match e with
  | Some err => Raised err
  | None => Returned tt
  end.

#[global] Instance services : Services t := {|
  config := unit;
  monitoring := unit;
  booking_manager := unit;
  ai_service := unit;
  Config := fun o => (ends (config_error o), o);
  MonitoringManager := fun o => (ends (monitoring_error o), o);
  BookingManager := fun _ o => (ends (manager_error o), o);
  AIService := fun _ _ o => (ends (ai_error o), o);
  api_key_set := fun _ o => (key o, o);
  monitoring_set := fun _ o => (Returned true, o);
  str_HTTPException := fun code detail => detail |}.

Definition working : t :=
  {| config_error := None; monitoring_error := None; manager_error := None;
     ai_error := None; key := Returned true |}.

Definition broken : t :=
  {| config_error := None; monitoring_error := None;
     manager_error := Some "no storage"; ai_error := None; key := Returned true |}.

End Scripted.

End Lifecycle.

(** Unfolds one layer of the state-threading combinators. *)
Ltac run :=
  unfold try_except, mbind, py_bind, bind, mret, py_ret, ret, call, ask, lift,
    read_bookings, read_sessions, write_sessions;
  cbn [bot sessions fst snd].

(** * Properties *)

#[local] Arguments Stdlib.Strings.String.append !s1 s2.

(** ** Substrings *)

Section Substrings.
Import PyStr.

Lemma startswith_spec (p s : string) :
  startswith p s = true <-> exists post : string, s = (p ++ post)%string.
Proof.
  revert s. induction p as [|a p IH]; intros s; simpl.
  - split; [intros _; exists s; reflexivity | reflexivity].
  - destruct s as [|b s].
    + split; [discriminate | intros [post Hp]; discriminate].
    + rewrite andb_true_iff, Stdlib.Strings.Ascii.eqb_eq, IH. split.
      * intros [-> [post ->]]. exists post. reflexivity.
      * intros [post Hp]. injection Hp as -> ->. split; [reflexivity | eauto].
Qed.

Lemma contains_spec (needle hay : string) :
  contains needle hay = true <-> occurs_in needle hay.
Proof.
  unfold occurs_in. induction hay as [|c hay IH]; simpl.
  - rewrite orb_false_r, startswith_spec. split.
    + intros [post Hp]. exists EmptyString, post. exact Hp.
    + intros [[|a pre] [post Hp]]; [exists post; exact Hp | discriminate].
  - rewrite orb_true_iff, startswith_spec, IH. split.
    + intros [[post Hp] | [pre [post Hp]]].
      * exists EmptyString, post. exact Hp.
      * exists (String c pre), post. simpl. rewrite Hp. reflexivity.
    + intros [[|a pre] [post Hp]].
      * left. exists post. exact Hp.
      * right. simpl in Hp. injection Hp as -> Hp. eauto.
Qed.

Lemma contains_empty (hay : string) : contains EmptyString hay = true.
Proof. destruct hay; reflexivity. Qed.

Lemma take_digits_spec (n : nat) (s ds : string) :
  take_digits n s = Some ds <->
  exists post : string,
    s = (ds ++ post)%string /\ String.length ds = n /\ all_digits ds = true.
Proof.
  revert s ds. induction n as [|n IH]; intros s ds; simpl.
  - split.
    + intros [= <-]. exists s. auto.
    + intros (post & _ & Hl & _). destruct ds; [reflexivity | discriminate].
  - destruct s as [|d t].
    + split; [discriminate|].
      intros (post & Hs & Hl & _). destruct ds; discriminate.
    + destruct (isdigit d) eqn:Hd.
      * destruct (take_digits n t) as [ds'|] eqn:Ht.
        -- apply IH in Ht as (post & -> & Hl & Ha). split.
           ++ intros [= <-]. exists post. simpl. rewrite Hd, Ha, Hl. auto.
           ++ intros (post' & Hs & Hl' & Ha'). destruct ds as [|c ds]; [discriminate|].
              simpl in *. injection Hs as <- Hs. injection Hl' as Hl'.
              apply andb_true_iff in Ha' as [_ Ha'].
              assert (Hx : take_digits n (ds' ++ post) = Some ds)
                by (apply IH; exists post'; auto).
              assert (Hy : take_digits n (ds' ++ post) = Some ds')
                by (apply IH; exists post; auto).
              congruence.
        -- split; [discriminate|].
           intros (post' & Hs & Hl' & Ha'). destruct ds as [|c ds]; [discriminate|].
           simpl in *. injection Hs as <- Hs. injection Hl' as Hl'.
           apply andb_true_iff in Ha' as [_ Ha'].
           assert (Hx : take_digits n t = Some ds) by (apply IH; exists post'; auto).
           congruence.
      * split; [discriminate|].
        intros (post' & Hs & Hl' & Ha'). destruct ds as [|c ds]; [discriminate|].
        simpl in *. injection Hs as <- Hs.
        apply andb_true_iff in Ha' as [Ha' _]. congruence.
Qed.

Lemma match_BK4_spec (s m : string) :
  match_BK4 s = Some m <-> exists post : string, s = (m ++ post)%string /\ BK4 m.
Proof.
  unfold match_BK4, BK4. split.
  - destruct s as [|b [|k t]]; try discriminate.
    destruct (Stdlib.Strings.Ascii.eqb b "B") eqn:Hb; [|discriminate].
    destruct (Stdlib.Strings.Ascii.eqb k "K") eqn:Hk; [|discriminate].
    apply Stdlib.Strings.Ascii.eqb_eq in Hb, Hk. subst b k.
    destruct (take_digits 4 t) as [ds|] eqn:Ht; [|discriminate].
    intros [= <-]. apply take_digits_spec in Ht as (post & -> & Hl & Ha).
    exists post. split; [reflexivity|]. exists ds. auto.
  - intros (post & -> & d & -> & Hl & Ha).
    change (("BK" ++ d) ++ post)%string with (String "B" (String "K" (d ++ post))).
    assert (Ht : take_digits 4 (d ++ post) = Some d)
      by (apply take_digits_spec; exists post; auto).
    cbv beta iota. rewrite !Stdlib.Strings.Ascii.eqb_refl, Ht. reflexivity.
Qed.

Lemma match_BK4_none (s m post : string) :
  match_BK4 s = None -> s = (m ++ post)%string -> ~ BK4 m.
Proof.
  intros Hn Hs Hm.
  assert (Hx : match_BK4 s = Some m) by (apply match_BK4_spec; eauto).
  congruence.
Qed.

Lemma BK4_nonempty (m : string) : BK4 m -> m <> EmptyString.
Proof. intros (d & -> & _) Hx. discriminate. Qed.

Lemma search_BK4_eq (s : string) :
  search_BK4 s =
  match match_BK4 s with
  | Some m => Some m
  | None => match s with EmptyString => None | String _ t => search_BK4 t end
  end.
Proof. destruct s; reflexivity. Qed.

Lemma search_BK4_leftmost (s m : string) :
  search_BK4 s = Some m <-> leftmost_BK4 s m.
Proof.
  unfold leftmost_BK4. revert m. induction s as [|c s IH]; intros m.
  - simpl. split; [discriminate|].
    intros (pre & post & Hs & Hm & _). apply BK4_nonempty in Hm.
    destruct pre; [destruct m; [congruence | discriminate] | discriminate].
  - cbn [search_BK4]. destruct (match_BK4 (String c s)) as [m0|] eqn:H0.
    + apply match_BK4_spec in H0 as (post0 & Hs0 & Hm0). split.
      * intros [= <-]. exists EmptyString, post0. split; [exact Hs0|].
        split; [exact Hm0|]. intros; simpl; lia.
      * intros (pre & post & Hs & Hm & Hleft).
        specialize (Hleft EmptyString m0 post0 Hs0 Hm0).
        destruct pre; [|simpl in Hleft; lia].
        simpl in Hs.
        assert (Hx : match_BK4 (String c s) = Some m)
          by (apply match_BK4_spec; eauto).
        assert (Hy : match_BK4 (String c s) = Some m0)
          by (apply match_BK4_spec; eauto).
        congruence.
    + rewrite IH. split.
      * intros (pre & post & -> & Hm & Hleft).
        exists (String c pre), post. split; [reflexivity|]. split; [exact Hm|].
        intros [|c' pre'] m' post' Hs' Hm'.
        -- exfalso. exact (match_BK4_none _ m' post' H0 Hs' Hm').
        -- simpl in Hs'. injection Hs' as _ Hs'.
           specialize (Hleft pre' m' post' Hs' Hm'). simpl. lia.
      * intros ([|c' pre] & post & Hs & Hm & Hleft).
        -- exfalso. exact (match_BK4_none _ m post H0 Hs Hm).
        -- simpl in Hs. injection Hs as _ ->.
           exists pre, post. split; [reflexivity|]. split; [exact Hm|].
           intros pre' m' post' Hs' Hm'.
           specialize (Hleft (String c pre') m' post').
           simpl in Hleft. rewrite Hs' in Hleft.
           specialize (Hleft eq_refl Hm'). lia.
Qed.

Lemma search_BK4_some (s : string) :
  (exists m : string, search_BK4 s = Some m) <->
  (exists m : string, occurs_in m s /\ BK4 m).
Proof.
  split.
  - intros [m Hm]. apply search_BK4_leftmost in Hm as (pre & post & Hs & Hb & _).
    exists m. split; [exists pre, post; exact Hs | exact Hb].
  - intros (m & (pre & post & Hs) & Hb). subst s.
    induction pre as [|c pre IH].
    + change (EmptyString ++ m ++ post)%string with (m ++ post)%string.
      assert (Hx : match_BK4 (m ++ post) = Some m)
        by (apply match_BK4_spec; eauto).
      exists m. rewrite search_BK4_eq, Hx. reflexivity.
    + rewrite search_BK4_eq.
      destruct (match_BK4 (String c pre ++ m ++ post)); eauto.
Qed.

End Substrings.

(** ** Decimal text *)

Section Decimal.
Import PyStr PyNum.

Lemma digit_char_spec (d : N) :
  (d < 10)%N ->
  isdigit (digit_char d) = true /\ digit_val (digit_char d) = Z.of_N d.
Proof.
  intros Hd.
  assert (Hc : (d = 0 \/ d = 1 \/ d = 2 \/ d = 3 \/ d = 4 \/ d = 5 \/ d = 6 \/
                d = 7 \/ d = 8 \/ d = 9)%N) by lia.
  repeat (destruct Hc as [-> | Hc]; [split; reflexivity|]).
  subst d. split; reflexivity.
Qed.

Lemma digits_value_app (a b : string) (acc : Z) :
  digits_value (a ++ b) acc = digits_value b (digits_value a acc).
Proof. revert acc. induction a as [|c a IH]; intros acc; simpl; auto. Qed.

Lemma all_digits_app (a b : string) :
  all_digits (a ++ b) = all_digits a && all_digits b.
Proof.
  induction a as [|c a IH]; simpl; [reflexivity|].
  rewrite IH, andb_assoc. reflexivity.
Qed.

Lemma append_assoc (a b c : string) : ((a ++ b) ++ c = a ++ b ++ c)%string.
Proof. induction a as [|x a IH]; simpl; congruence. Qed.

Lemma str_N_aux_spec (fuel : nat) (n : N) (acc : string) :
  (n < 2 ^ N.of_nat fuel)%N -> fuel <> O ->
  exists ds : string,
    str_N_aux fuel n acc = (ds ++ acc)%string /\
    ds <> EmptyString /\ all_digits ds = true /\
    forall a : Z, digits_value ds a = (a * 10 ^ Z.of_nat (String.length ds) + Z.of_N n)%Z.
Proof.
  revert n acc. induction fuel as [|f IH]; intros n acc Hn Hf; [congruence|].
  cbn [str_N_aux].
  assert (Hm : (n mod 10 < 10)%N) by (apply N.mod_lt; lia).
  destruct (digit_char_spec _ Hm) as [Hd Hv].
  destruct (N.eqb_spec (n / 10) 0) as [Hq|Hq].
  - exists (String (digit_char (n mod 10)) EmptyString).
    split; [reflexivity|]. split; [discriminate|]. split.
    + simpl. rewrite Hd. reflexivity.
    + intros a. simpl. rewrite Hv.
      assert (n = n mod 10)%N.
      { pose proof (N.div_mod n 10 ltac:(lia)) as E. rewrite Hq in E. lia. }
      lia.
  - assert (Hf' : f <> O).
    { intros ->. simpl in Hn.
      assert (n / 10 = 0)%N by (apply N.div_small; lia). contradiction. }
    assert (Hn' : (n / 10 < 2 ^ N.of_nat f)%N).
    { rewrite Nat2N.inj_succ, N.pow_succ_r' in Hn.
      apply N.Div0.div_lt_upper_bound. lia. }
    destruct (IH (n / 10)%N (String (digit_char (n mod 10)) acc) Hn' Hf')
      as (ds & Hs & Hne & Ha & Hval).
    exists (ds ++ String (digit_char (n mod 10)) EmptyString)%string.
    split; [rewrite Hs, append_assoc; reflexivity|].
    split; [destruct ds; [congruence | discriminate]|].
    split; [rewrite all_digits_app, Ha; simpl; rewrite Hd; reflexivity|].
    intros a. rewrite digits_value_app, Hval. simpl. rewrite Hv.
    assert (Hlen : String.length (ds ++ String (digit_char (n mod 10)) EmptyString)
                   = S (String.length ds)).
    { clear. induction ds as [|x ds IHd]; simpl; [reflexivity | rewrite IHd; reflexivity]. }
    rewrite Hlen, Nat2Z.inj_succ, Z.pow_succ_r by lia.
    pose proof (N.div_mod n 10 ltac:(lia)) as E.
    rewrite N2Z.inj_div in *. 
    assert (Z.of_N n = 10 * (Z.of_N n / 10) + Z.of_N (n mod 10))%Z.
    { rewrite N2Z.inj_mod. apply Z.div_mod. lia. }
    lia.
Qed.

Lemma str_N_spec (n : N) :
  str_N n <> EmptyString /\ all_digits (str_N n) = true /\
  digits_value (str_N n) 0 = Z.of_N n.
Proof.
  unfold str_N.
  destruct (str_N_aux_spec (S (N.to_nat (N.log2 n))) n EmptyString)
    as (ds & Hs & Hne & Ha & Hval).
  - rewrite Nat2N.inj_succ, N2Nat.id.
    destruct (N.eq_dec n 0%N) as [->|Hn]; [reflexivity|].
    apply N.log2_spec. lia.
  - discriminate.
  - assert (E : (ds ++ EmptyString)%string = ds).
    { clear. induction ds as [|x ds IHd]; simpl; [reflexivity | rewrite IHd; reflexivity]. }
    rewrite Hs, E. split; [exact Hne|]. split; [exact Ha|].
    rewrite Hval. lia.
Qed.

Lemma isdigit_not_underscore (c : ascii) :
  isdigit c = true -> Stdlib.Strings.Ascii.eqb c "_" = false.
Proof.
  intros Hc. destruct (Stdlib.Strings.Ascii.eqb_spec c "_") as [->|]; [|reflexivity].
  discriminate Hc.
Qed.

Lemma digitpart_digits (s : string) (acc : Z) (n : nat) :
  s <> EmptyString -> all_digits s = true ->
  digitpart s acc n = Some (digits_value s acc, (n + String.length s)%nat, EmptyString).
Proof.
  revert acc n. induction s as [|d t IH]; intros acc n Hne Ha; [congruence|].
  simpl in Ha. apply andb_true_iff in Ha as [Hd Ht].
  cbn [digitpart]. rewrite Hd. destruct t as [|c t'].
  - cbn [digits_value String.length]. rewrite Nat.add_1_r. reflexivity.
  - assert (Hc : isdigit c = true) by (simpl in Ht; apply andb_true_iff in Ht; tauto).
    rewrite (isdigit_not_underscore c Hc), IH by (auto; discriminate).
    cbn [digits_value String.length].
    replace (n + S (S (String.length t')))%nat with (S n + S (String.length t'))%nat by lia.
    reflexivity.
Qed.

Lemma digits_no_space (c : ascii) : isdigit c = true -> isspace c = false.
Proof.
  unfold isdigit, isspace, in_range. intros Hc.
  apply andb_true_iff in Hc as [H1 H2].
  apply N.leb_le in H1, H2.
  repeat rewrite orb_false_iff. repeat split.
  - apply andb_false_iff. right. apply N.leb_gt. lia.
  - apply andb_false_iff. right. apply N.leb_gt. lia.
  - apply N.eqb_neq. lia.
  - apply N.eqb_neq. lia.
Qed.

Lemma all_digits_none_of (p : ascii -> bool) (s : string) :
  (forall c : ascii, isdigit c = true -> p c = false) ->
  all_digits s = true -> none_of p s = true.
Proof.
  intros Hp. induction s as [|c t IH]; simpl; [reflexivity|].
  intros Ha. apply andb_true_iff in Ha as [Hc Ht].
  rewrite (Hp c Hc), IH by exact Ht. reflexivity.
Qed.

Lemma rstrip_id (s : string) : none_of isspace s = true -> rstrip s = s.
Proof.
  induction s as [|c t IH]; simpl; [reflexivity|].
  intros Hs. apply andb_true_iff in Hs as [Hc Ht].
  rewrite IH by exact Ht. apply negb_true_iff in Hc. rewrite Hc.
  destruct t; reflexivity.
Qed.

Lemma lstrip_id (s : string) : none_of isspace s = true -> lstrip s = s.
Proof.
  destruct s as [|c t]; simpl; [reflexivity|].
  intros Hs. apply andb_true_iff in Hs as [Hc _].
  apply negb_true_iff in Hc. rewrite Hc. reflexivity.
Qed.

Lemma strip_id (s : string) : none_of isspace s = true -> strip s = s.
Proof. intros Hs. unfold strip. rewrite lstrip_id, rstrip_id; auto. Qed.

Lemma strip_number_id (s : string) :
  none_of isspace s = true -> strip_number s = s.
Proof.
  intros Hs. unfold strip_number.
  assert (Hl : lstrip_number s = s).
  { destruct s as [|c t]; cbn [lstrip_number]; [reflexivity|].
    cbn [none_of] in Hs. apply andb_true_iff in Hs as [Hc _].
    apply negb_true_iff in Hc. unfold isspace_number. rewrite Hc. reflexivity. }
  rewrite Hl. clear Hl. induction s as [|c t IH]; cbn [rstrip_number]; [reflexivity|].
  cbn [none_of] in Hs. apply andb_true_iff in Hs as [Hc Ht].
  apply negb_true_iff in Hc. rewrite IH by exact Ht.
  unfold isspace_number. rewrite Hc. destruct t; reflexivity.
Qed.

Lemma py_int_digits (ds : string) :
  ds <> EmptyString -> all_digits ds = true ->
  py_int ds = Returned (digits_value ds 0).
Proof.
  intros Hne Ha. unfold py_int, int_of_str.
  rewrite strip_number_id by (apply all_digits_none_of; auto using digits_no_space).
  assert (Hs : sign ds = (false, ds)).
  { destruct ds as [|c t]; [congruence|]. simpl in Ha.
    apply andb_true_iff in Ha as [Hc _]. unfold sign.
    destruct (Stdlib.Strings.Ascii.eqb_spec c "-") as [->|]; [discriminate Hc|].
    destruct (Stdlib.Strings.Ascii.eqb_spec c "+") as [->|]; [discriminate Hc|].
    reflexivity. }
  rewrite Hs, digitpart_digits by assumption. reflexivity.
Qed.

Lemma py_int_str_N (n : N) : py_int (str_N n) = Returned (Z.of_N n).
Proof.
  destruct (str_N_spec n) as (Hne & Ha & Hv).
  rewrite py_int_digits, Hv by assumption. reflexivity.
Qed.

Lemma int_of_str_str_int (z : Z) : int_of_str (str_int z) = Some z.
Proof.
  destruct (str_N_spec (Z.abs_N z)) as (Hne & Ha & Hv).
  unfold str_int. destruct (Z.ltb_spec z 0) as [Hz|Hz].
  - unfold int_of_str.
    rewrite strip_number_id.
    + cbn [sign]. change (Stdlib.Strings.Ascii.eqb "-" "-") with true. cbv iota.
      rewrite digitpart_digits, Hv by assumption. f_equal. lia.
    + cbn [none_of]. change (negb (isspace "-")) with true.
      apply all_digits_none_of; auto using digits_no_space.
  - pose proof (py_int_digits _ Hne Ha) as Hp. unfold py_int in Hp.
    destruct (int_of_str (str_N (Z.abs_N z))) as [v|]; [|discriminate].
    injection Hp as ->. f_equal. lia.
Qed.

End Decimal.

(** ** Running the endpoints *)

Section Runs.
Context {env : Type} `{Bot env}.

Lemma cancel_booking_returned (booking_id result : string) (w : world env) (b' : env) :
  manager_cancel_booking booking_id (bot w) = (Returned result, b') ->
  cancel_booking booking_id w =
  (Returned (cancelled_response booking_id result), World b' (sessions w)).
Proof. intros Hm. unfold cancel_booking. run. rewrite Hm. reflexivity. Qed.

Lemma create_booking_returned (request : BookingRequest.t) (result : string)
    (w : world env) (b' : env) :
  manager_create_booking (booking_data_of request) (bot w) = (Returned result, b') ->
  create_booking request w =
  (Returned (created_response result (bookings b')), World b' (sessions w)).
Proof. intros Hm. unfold create_booking. run. rewrite Hm. reflexivity. Qed.

Lemma get_stats_returned (result : string) (st : stats_dict) (w : world env) (b' : env) :
  manager_get_booking_stats (bot w) = (Returned result, b') ->
  parsed_stats result = Returned st ->
  get_stats w = (Returned (stats_response st), World b' (sessions w)).
Proof. intros Hm Hp. unfold get_stats. run. rewrite Hm. cbn. rewrite Hp. reflexivity. Qed.

Lemma list_loop (status date : option string) (l : ledger) (acc : list BookingDetails.t) :
  fold_left (list_step status date) l acc =
  acc ++ List.map (fun item => booking_details (fst item) (snd item))
           (List.filter (selected status date) l).
Proof.
  revert acc. induction l as [|[i d] l IH]; intros acc; cbn [fold_left List.filter].
  - cbn. rewrite app_nil_r. reflexivity.
  - rewrite IH. unfold list_step at 1, selected at 2. cbn [fst snd].
    destruct (truthy status); cbn [andb].
    + destruct (PyStr.lower (get_str d "status") =s? PyStr.lower (default "" status));
        cbn [negb andb]; [|reflexivity].
      destruct (truthy date); cbn [andb].
      * destruct (get_str d "date" =s? default "" date); cbn [negb];
          [|reflexivity].
        cbn [List.map fst snd]. rewrite <- app_assoc. reflexivity.
      * cbn [List.map fst snd]. rewrite <- app_assoc. reflexivity.
    + destruct (truthy date); cbn [andb].
      * destruct (get_str d "date" =s? default "" date); cbn [negb];
          [|reflexivity].
        cbn [List.map fst snd]. rewrite <- app_assoc. reflexivity.
      * cbn [List.map fst snd]. rewrite <- app_assoc. reflexivity.
Qed.

Lemma ledger_get_none (booking_id : string) (l : ledger) :
  ledger_get booking_id l = None <-> ~ In booking_id (List.map fst l).
Proof.
  induction l as [|[k d] l IH]; cbn [ledger_get List.map fst In]; [tauto|].
  destruct (Stdlib.Strings.String.eqb_spec k booking_id) as [->|Hk].
  - split; [discriminate | intros Hn; exfalso; apply Hn; left; reflexivity].
  - rewrite IH. tauto.
Qed.

Lemma ledger_get_some (booking_id : string) (d : details) (l : ledger) :
  ledger_get booking_id l = Some d -> In (booking_id, d) l.
Proof.
  induction l as [|[k d'] l IH]; cbn [ledger_get In]; [discriminate|].
  destruct (Stdlib.Strings.String.eqb_spec k booking_id) as [->|Hk].
  - intros [= ->]. left. reflexivity.
  - intros Hg. right. exact (IH Hg).
Qed.

End Runs.

Section ChatRuns.
Context {env : Type} `{Bot env}.

(** The [try] block of [chat_with_bot] raises only what [track_event] or
    [process_user_input] raised, and leaves the sessions as they were. *)
Lemma chat_body_raises (request : ChatRequest.t) (w w1 : world env) (e : string) :
  chat_body request w = (Raised e, w1) ->
  sessions w1 = sessions w /\
  exists (ev : event) (b0 : env),
    track_event ev b0 = (Raised e, bot w1) \/
    exists b1 : env,
      track_event ev b0 = (Returned tt, b1) /\
      manager_process_user_input (ChatRequest.message request) b1 = (Raised e, bot w1).
Proof.
  unfold chat_body. run.
  destruct (truthy (ChatRequest.session_id request)).
  - cbn [bot sessions].
    match goal with |- context [track_event ?ev (bot w)] => set (ev0 := ev) end.
    destruct (track_event ev0 (bot w)) as [[[]|e0] b1] eqn:Hev.
    + cbn [bot sessions].
      destruct (manager_process_user_input (ChatRequest.message request) b1)
        as [[text|e1] b2] eqn:Hp.
      * cbn [bot sessions].
        destruct (sessions w !! default "" (ChatRequest.session_id request));
          cbn [bot sessions]; repeat (destruct (datetime_now _)); discriminate.
      * intros [= -> <-]. split; [reflexivity|].
        exists ev0, (bot w). right. exists b1. auto.
    + intros [= -> <-]. split; [reflexivity|].
      exists ev0, (bot w). left. exact Hev.
  - destruct (uuid4 (bot w)) as [sid b0]. cbn [bot sessions].
    match goal with |- context [track_event ?ev b0] => set (ev0 := ev) end.
    destruct (track_event ev0 b0) as [[[]|e0] b1] eqn:Hev.
    + cbn [bot sessions].
      destruct (manager_process_user_input (ChatRequest.message request) b1)
        as [[text|e1] b2] eqn:Hp.
      * cbn [bot sessions].
        destruct (sessions w !! sid);
          cbn [bot sessions]; repeat (destruct (datetime_now _)); discriminate.
      * intros [= -> <-]. split; [reflexivity|].
        exists ev0, b0. right. exists b1. auto.
    + intros [= -> <-]. split; [reflexivity|].
      exists ev0, b0. left. exact Hev.
Qed.

End ChatRuns.

(** ** The endpoints *)

(** C8: [get_booking] answers with the stored record when the identifier
    is a key of the ledger and with the "Booking not found" response when
    it is not; it returns in both cases and leaves the state as it was. *)
Theorem get_booking_found_or_not_found
    {env : Type} `{Bot env} (booking_id : string) (w : world env) :
  get_booking booking_id w =
  (Returned
     match ledger_get booking_id (bookings (bot w)) with
     | Some d =>
         {| BookingResponse.booking_id := Some booking_id;
            BookingResponse.success := true;
            BookingResponse.message := "Booking details retrieved successfully";
            BookingResponse.booking_data := Some d;
            BookingResponse.error := None |}
     | None =>
         {| BookingResponse.booking_id := None;
            BookingResponse.success := false;
            BookingResponse.message := "Booking " ++ booking_id ++ " not found";
            BookingResponse.booking_data := None;
            BookingResponse.error := Some "Booking not found" |}
     end, w) /\
  (ledger_get booking_id (bookings (bot w)) = None <->
   ~ In booking_id (List.map fst (bookings (bot w)))) /\
  (forall d : details,
     ledger_get booking_id (bookings (bot w)) = Some d ->
     In (booking_id, d) (bookings (bot w))).
Proof.
  split; [|split].
  - unfold get_booking. run.
    destruct (ledger_get booking_id (bookings (bot w))); reflexivity.
  - apply ledger_get_none.
  - intros d. apply ledger_get_some.
Qed.

(** C7: [list_bookings] returns, in the order of the ledger, exactly the
    bookings selected by the filters that are supplied, and every booking
    when none is. *)
Theorem list_bookings_selected
    {env : Type} `{Bot env} (status date : option string) (w : world env) :
  let chosen := List.filter (selected status date) (bookings (bot w)) in
  let found := List.map (fun item => booking_details (fst item) (snd item)) chosen in
  list_bookings status date w =
  (Returned {| BookingListResponse.bookings := found;
               BookingListResponse.total_count := length found;
               BookingListResponse.success := None;
               BookingListResponse.error := None |}, w) /\
  List.filter (selected None None) (bookings (bot w)) = bookings (bot w) /\
  list_bookings (Some "") (Some "") w = list_bookings None None w.
Proof.
  cbv zeta. split; [|split].
  - unfold list_bookings. run. rewrite list_loop. reflexivity.
  - induction (bookings (bot w)) as [|x l IH]; cbn; [reflexivity|].
    f_equal. exact IH.
  - reflexivity.
Qed.

(** C1, as the code has it: when the manager returns a text, the response
    of [cancel_booking] carries the identifier and the text, and its
    success flag is set exactly when the lower-cased text contains
    "cancelled successfully"; no other field tells one failure from
    another. *)
Theorem cancel_success_follows_message
    {env : Type} `{Bot env} (booking_id result : string) (w : world env) (b' : env) :
  manager_cancel_booking booking_id (bot w) = (Returned result, b') ->
  exists r : BookingResponse.t,
    cancel_booking booking_id w = (Returned r, World b' (sessions w)) /\
    BookingResponse.booking_id r = Some booking_id /\
    BookingResponse.message r = result /\
    BookingResponse.booking_data r = None /\
    BookingResponse.error r = None /\
    (BookingResponse.success r = true <->
     occurs_in "cancelled successfully" (PyStr.lower result)).
Proof.
  intros Hm. exists (cancelled_response booking_id result).
  split; [exact (cancel_booking_returned _ _ _ _ Hm)|].
  repeat (split; [reflexivity|]).
  cbn [cancelled_response BookingResponse.success]. apply contains_spec.
Qed.

Lemma cancel_success_follows_message_witness :
  exists r : BookingResponse.t,
    cancel_booking "BK0001"
      (Scripted.answering [] "Booking BK0001 has been Cancelled Successfully.") =
    (Returned r,
     Scripted.answering [] "Booking BK0001 has been Cancelled Successfully.") /\
    BookingResponse.booking_id r = Some "BK0001" /\
    BookingResponse.message r = "Booking BK0001 has been Cancelled Successfully." /\
    BookingResponse.booking_data r = None /\
    BookingResponse.error r = None /\
    (BookingResponse.success r = true <->
     occurs_in "cancelled successfully"
       (PyStr.lower "Booking BK0001 has been Cancelled Successfully.")).
Proof.
  apply (cancel_success_follows_message "BK0001"
           "Booking BK0001 has been Cancelled Successfully."
           (Scripted.answering [] "Booking BK0001 has been Cancelled Successfully.")).
  reflexivity.
Defined.

(** C1, as claimed, fails: two runs that differ in nothing but the wording
    of the manager's reply report different outcomes. *)
Lemma cancel_success_read_from_wording : ~ cancel_success_ignores_wording.
Proof.
  intros Hc.
  specialize (Hc "BK0001" []
                "Booking BK0001 cancelled successfully"
                "Booking BK0001 could not be cancelled"
                (cancelled_response "BK0001" "Booking BK0001 cancelled successfully")
                (cancelled_response "BK0001" "Booking BK0001 could not be cancelled")
                eq_refl eq_refl).
  vm_compute in Hc. discriminate Hc.
Qed.

(** C2, as the code has it: when the manager returns a text, the
    identifier in the response of [create_booking] is the leftmost
    substring of that text made of [BK] and four digits, looked for only
    when the text contains "Booking created successfully"; the booking
    data is what the ledger holds under that substring. *)
Theorem created_id_is_leftmost_match
    {env : Type} `{Bot env} (request : BookingRequest.t) (result : string)
    (w : world env) (b' : env) :
  manager_create_booking (booking_data_of request) (bot w) = (Returned result, b') ->
  exists r : BookingResponse.t,
    create_booking request w = (Returned r, World b' (sessions w)) /\
    BookingResponse.message r = result /\
    (forall i : string,
       BookingResponse.booking_id r = Some i <->
       occurs_in "Booking created successfully" result /\ leftmost_BK4 result i) /\
    BookingResponse.booking_data r =
      match BookingResponse.booking_id r with
      | Some i => ledger_get i (bookings b')
      | None => None
      end.
Proof.
  intros Hm. exists (created_response result (bookings b')).
  split; [exact (create_booking_returned _ _ _ _ Hm)|].
  split; [reflexivity|]. split; [|reflexivity].
  intros i. cbn [created_response BookingResponse.booking_id].
  rewrite <- contains_spec, <- search_BK4_leftmost.
  destruct (PyStr.contains "Booking created successfully" result).
  - tauto.
  - split; [discriminate | intros [Hx _]; discriminate Hx].
Qed.

Lemma created_id_is_leftmost_match_witness :
  exists r : BookingResponse.t,
    create_booking
      {| BookingRequest.name := "Alice"; BookingRequest.contact := "a@x.com";
         BookingRequest.date := "2024-06-01"; BookingRequest.time := "19:00";
         BookingRequest.guests := 2; BookingRequest.special_requirements := None |}
      (Scripted.answering [] "Booking created successfully! ID: BK0001") =
    (Returned r, Scripted.answering [] "Booking created successfully! ID: BK0001") /\
    BookingResponse.message r = "Booking created successfully! ID: BK0001" /\
    (forall i : string,
       BookingResponse.booking_id r = Some i <->
       occurs_in "Booking created successfully"
         "Booking created successfully! ID: BK0001" /\
       leftmost_BK4 "Booking created successfully! ID: BK0001" i) /\
    BookingResponse.booking_data r =
      match BookingResponse.booking_id r with
      | Some i => ledger_get i []
      | None => None
      end.
Proof.
  exact (created_id_is_leftmost_match
           {| BookingRequest.name := "Alice"; BookingRequest.contact := "a@x.com";
              BookingRequest.date := "2024-06-01"; BookingRequest.time := "19:00";
              BookingRequest.guests := 2; BookingRequest.special_requirements := None |}
           "Booking created successfully! ID: BK0001"
           (Scripted.answering [] "Booking created successfully! ID: BK0001")
           (bot (Scripted.answering [] "Booking created successfully! ID: BK0001"))
           eq_refl).
Defined.

(** C2, as claimed, fails: over one and the same ledger, two successful
    runs that differ in nothing but the wording of the manager's reply
    hand different identifiers to the caller. *)
Lemma created_id_read_from_wording : ~ created_id_ignores_wording.
Proof.
  intros Hc.
  set (l := [("BK0001", (∅ : details)); ("BK0002", (∅ : details))]).
  set (request :=
         {| BookingRequest.name := "Alice"; BookingRequest.contact := "a@x.com";
            BookingRequest.date := "2024-06-01"; BookingRequest.time := "19:00";
            BookingRequest.guests := 2; BookingRequest.special_requirements := None |}).
  specialize (Hc request l
                "Booking created successfully! Your booking ID is BK0001"
                "Booking created successfully! Your booking ID is BK0002"
                (created_response "Booking created successfully! Your booking ID is BK0001" l)
                (created_response "Booking created successfully! Your booking ID is BK0002" l)
                eq_refl eq_refl eq_refl eq_refl).
  vm_compute in Hc. discriminate Hc.
Qed.

(** C10: in the response of [create_booking] the success flag is set
    exactly when the manager's text contains "Booking created
    successfully"; the identifier is present exactly when the text also
    contains [BK] and four digits; so a text with the first and without the
    second yields success without identifier and without booking data. *)
Theorem created_flags_follow_message :
  (forall (env : Type) (B : Bot env) (request : BookingRequest.t) (result : string)
          (w : world env) (b' : env),
     manager_create_booking (booking_data_of request) (bot w) = (Returned result, b') ->
     exists r : BookingResponse.t,
       create_booking request w = (Returned r, World b' (sessions w)) /\
       (BookingResponse.success r = true <->
        occurs_in "Booking created successfully" result) /\
       (BookingResponse.booking_id r <> None <->
        occurs_in "Booking created successfully" result /\
        exists m : string, occurs_in m result /\ BK4 m) /\
       (BookingResponse.booking_id r = None -> BookingResponse.booking_data r = None)) /\
  (exists result : string,
     forall (env : Type) (B : Bot env) (request : BookingRequest.t)
            (w : world env) (b' : env),
       manager_create_booking (booking_data_of request) (bot w) = (Returned result, b') ->
       exists r : BookingResponse.t,
         create_booking request w = (Returned r, World b' (sessions w)) /\
         BookingResponse.success r = true /\
         BookingResponse.booking_id r = None /\
         BookingResponse.booking_data r = None).
Proof.
  split.
  - intros env B request result w b' Hm.
    exists (created_response result (bookings b')).
    split; [exact (create_booking_returned _ _ _ _ Hm)|].
    cbn [created_response BookingResponse.success BookingResponse.booking_id
           BookingResponse.booking_data].
    rewrite <- contains_spec, <- search_BK4_some.
    destruct (PyStr.contains "Booking created successfully" result).
    + split; [tauto|]. split.
      * destruct (PyStr.search_BK4 result) as [m|].
        -- split; [eauto | discriminate].
        -- split; [congruence | intros [_ [m Hx]]; discriminate Hx].
      * intros ->. reflexivity.
    + split; [tauto|]. split; [|reflexivity].
      split; [congruence | intros [Hx _]; discriminate Hx].
  - exists "Booking created successfully".
    intros env B request w b' Hm.
    exists (created_response "Booking created successfully" (bookings b')).
    split; [exact (create_booking_returned _ _ _ _ Hm)|].
    repeat split.
Qed.

Lemma created_flags_follow_message_witness :
  exists r : BookingResponse.t,
    create_booking
      {| BookingRequest.name := "Alice"; BookingRequest.contact := "a@x.com";
         BookingRequest.date := "2024-06-01"; BookingRequest.time := "19:00";
         BookingRequest.guests := 2; BookingRequest.special_requirements := None |}
      (Scripted.answering [] "Booking created successfully for Alice") =
    (Returned r, Scripted.answering [] "Booking created successfully for Alice") /\
    (BookingResponse.success r = true <->
     occurs_in "Booking created successfully" "Booking created successfully for Alice") /\
    (BookingResponse.booking_id r <> None <->
     occurs_in "Booking created successfully" "Booking created successfully for Alice" /\
     exists m : string,
       occurs_in m "Booking created successfully for Alice" /\ BK4 m) /\
    (BookingResponse.booking_id r = None -> BookingResponse.booking_data r = None).
Proof.
  exact (proj1 created_flags_follow_message Scripted.t Scripted.bot
           {| BookingRequest.name := "Alice"; BookingRequest.contact := "a@x.com";
              BookingRequest.date := "2024-06-01"; BookingRequest.time := "19:00";
              BookingRequest.guests := 2; BookingRequest.special_requirements := None |}
           "Booking created successfully for Alice"
           (Scripted.answering [] "Booking created successfully for Alice")
           (bot (Scripted.answering [] "Booking created successfully for Alice"))
           eq_refl).
Defined.

(** C9: the dictionary [create_booking] hands to the manager holds
    [guests] as the decimal text of the request's integer, which [int]
    reads back, and [special_requirements] as the text given, the empty
    text when none is given. *)
Theorem create_booking_hands_over_text (request : BookingRequest.t) :
  (forall log : list details,
     bot (snd (create_booking request (World log ∅))) =
     log ++ [booking_data_of request]) /\
  booking_data_of request !! "guests" =
    Some (PyNum.str_int (BookingRequest.guests request)) /\
  PyNum.int_of_str (PyNum.str_int (BookingRequest.guests request)) =
    Some (BookingRequest.guests request) /\
  booking_data_of request !! "special_requirements" =
    Some (default "" (BookingRequest.special_requirements request)) /\
  (BookingRequest.special_requirements request = None ->
   booking_data_of request !! "special_requirements" = Some "").
Proof.
  assert (Hsr : booking_data_of request !! "special_requirements" =
                Some (default "" (BookingRequest.special_requirements request))).
  { unfold booking_data_of. rewrite !lookup_insert_ne by discriminate.
    rewrite lookup_insert_eq.
    destruct (BookingRequest.special_requirements request) as [[|c s]|]; reflexivity. }
  split; [|split; [|split; [|split]]].
  - intros log. reflexivity.
  - unfold booking_data_of. rewrite !lookup_insert_ne by discriminate.
    apply lookup_insert_eq.
  - apply int_of_str_str_int.
  - exact Hsr.
  - intros Hn. rewrite Hsr, Hn. reflexivity.
Qed.

(** C4, as the code has it: whatever the [try] block of [chat_with_bot]
    does, the endpoint returns a response and raises nothing, provided the
    error report made by the handler itself returns; when the block
    raised, the response is the apology, marked as failed, with the text
    of the error. *)
Theorem chat_errors_become_apology
    {env : Type} `{Bot env} (request : ChatRequest.t) (w : world env) :
  (forall (e : string) (w1 : world env),
     chat_body request w = (Raised e, w1) ->
     exists b2 : env,
       track_error e
         (ChatContext (ChatRequest.session_id request) (ChatRequest.user_id request))
         (bot w1) = (Returned tt, b2)) ->
  exists (r : ChatResponse.t) (w' : world env),
    chat_with_bot request w = (Returned r, w') /\
    (forall (e : string) (w1 : world env),
       chat_body request w = (Raised e, w1) ->
       r = {| ChatResponse.response := apology;
              ChatResponse.session_id := ChatRequest.session_id request;
              ChatResponse.success := false;
              ChatResponse.error := Some e |} /\
       sessions w' = sessions w1).
Proof.
  intros Hreport. unfold chat_with_bot, try_except.
  destruct (chat_body request w) as [[r|e] w1] eqn:Hbody.
  - exists r, w1. split; [reflexivity|]. intros e w2 [=].
  - destruct (Hreport e w1 eq_refl) as [b2 Hb2].
    unfold chat_handler. run. rewrite Hb2.
    eexists _, _. split; [reflexivity|].
    intros e' w2 [= <- <-]. split; reflexivity.
Qed.

Lemma chat_errors_become_apology_witness :
  exists (r : ChatResponse.t) (w' : world Scripted.t),
    chat_with_bot
      {| ChatRequest.message := "Book a table for 4 tomorrow";
         ChatRequest.session_id := Some "s-1";
         ChatRequest.user_id := None |}
      (Scripted.failing [] "model unavailable") = (Returned r, w') /\
    (forall (e : string) (w1 : world Scripted.t),
       chat_body
         {| ChatRequest.message := "Book a table for 4 tomorrow";
            ChatRequest.session_id := Some "s-1";
            ChatRequest.user_id := None |}
         (Scripted.failing [] "model unavailable") = (Raised e, w1) ->
       r = {| ChatResponse.response := apology;
              ChatResponse.session_id := Some "s-1";
              ChatResponse.success := false;
              ChatResponse.error := Some e |} /\
       sessions w' = sessions w1).
Proof.
  apply (chat_errors_become_apology
           {| ChatRequest.message := "Book a table for 4 tomorrow";
              ChatRequest.session_id := Some "s-1";
              ChatRequest.user_id := None |}
           (Scripted.failing [] "model unavailable")).
  intros e w1 Hbody. vm_compute in Hbody.
  injection Hbody as <- <-. eexists. reflexivity.
Defined.

(** C4, as claimed, fails: the handler reports the error before it
    builds the apology, and an exception of that report is not caught; it
    leaves the endpoint in place of the apology. *)
Lemma chat_error_escapes_the_handler : ~ chat_errors_never_escape.
Proof.
  intros Hc.
  destruct (Hc Scripted.t Scripted.bot
              {| ChatRequest.message := "hello";
                 ChatRequest.session_id := Some "s-1";
                 ChatRequest.user_id := None |}
              (World {| Scripted.ledger_of := [];
                        Scripted.reply := Raised "model unavailable";
                        Scripted.event_tracking := Returned tt;
                        Scripted.error_tracking := Raised "sink unavailable" |} ∅)
              (World {| Scripted.ledger_of := [];
                        Scripted.reply := Raised "model unavailable";
                        Scripted.event_tracking := Returned tt;
                        Scripted.error_tracking := Raised "sink unavailable" |} ∅)
              "model unavailable" eq_refl) as [w' Hw].
  vm_compute in Hw. discriminate Hw.
Qed.

(** An utterance whose processing fails is answered with the apology. *)
Example chat_processing_failure :
  fst (chat_with_bot
         {| ChatRequest.message := "Book a table for 4 tomorrow";
            ChatRequest.session_id := Some "s-1";
            ChatRequest.user_id := None |}
         (Scripted.failing [] "model unavailable")) =
  Returned {| ChatResponse.response := apology;
              ChatResponse.session_id := Some "s-1";
              ChatResponse.success := false;
              ChatResponse.error := Some "model unavailable" |}.
Proof. reflexivity. Qed.

(** An utterance that is processed is answered with the manager's text,
    and the session is counted. *)
Example chat_processing_success :
  chat_with_bot
    {| ChatRequest.message := "hello";
       ChatRequest.session_id := Some "s-1";
       ChatRequest.user_id := None |}
    (Scripted.answering [] "Hi! How can I help?") =
  (Returned {| ChatResponse.response := "Hi! How can I help?";
               ChatResponse.session_id := Some "s-1";
               ChatResponse.success := true;
               ChatResponse.error := None |},
   World (bot (Scripted.answering [] "Hi! How can I help?"))
     {[ "s-1" := {| Session.created_at := 0;
                    Session.message_count := 1;
                    Session.last_activity := Some 0%Z |} ]}).
Proof. reflexivity. Qed.

(** The handler itself is not guarded: when its own error report raises,
    that exception leaves the endpoint. *)
Example chat_handler_failure :
  fst (chat_with_bot
         {| ChatRequest.message := "hello";
            ChatRequest.session_id := None;
            ChatRequest.user_id := None |}
         (World {| Scripted.ledger_of := [];
                   Scripted.reply := Raised "model unavailable";
                   Scripted.event_tracking := Returned tt;
                   Scripted.error_tracking := Raised "sink unavailable" |} ∅)) =
  Raised "sink unavailable".
Proof. reflexivity. Qed.

(** ** The query engine of the design *)

Lemma field_matches_empty (b : Design.Booking) : Design.field_matches "" b = true.
Proof. unfold Design.field_matches. cbn [PyStr.lower]. rewrite contains_empty. reflexivity. Qed.

(** Without its guard the rate faults on the empty ledger. *)
Lemma rate_faults_without_bookings : Design.rate 0 0 = Raised "division by zero".
Proof. reflexivity. Qed.

(** C6: [search] with the empty query returns no booking, whatever the
    ledger holds. *)
Theorem search_empty_query (l : list Design.Booking) : Design.search "" l = [].
Proof. reflexivity. Qed.

(** C5: [stats] returns on every ledger; its success rate is
    [confirmed_count / total * 100], and [0] when there is no booking, in
    which case no division takes place. *)
Theorem stats_success_rate (today : string) (l : list Design.Booking) :
  (exists st : Design.Statistics,
     Design.stats today l = Returned st /\
     Design.total st = Z.of_nat (length l) /\
     Design.confirmed_count st = Design.count Design.is_confirmed l /\
     (Design.total st = 0%Z -> Design.success_rate st = 0%Q) /\
     (Design.total st <> 0%Z ->
      Design.success_rate st =
      (inject_Z (Design.confirmed_count st) / inject_Z (Design.total st) * 100)%Q)) /\
  Design.stats today [] =
    Returned {| Design.total := 0; Design.confirmed_count := 0;
                Design.cancelled_count := 0; Design.total_guests := 0;
                Design.today_count := 0; Design.success_rate := 0%Q |}.
Proof.
  split; [|reflexivity].
  unfold Design.stats, Design.rate, Design.truediv.
  destruct (Z.eqb_spec (Z.of_nat (length l)) 0) as [Hz|Hz].
  - eexists. split; [reflexivity|].
    cbn [Design.total Design.success_rate Design.confirmed_count].
    split; [reflexivity|]. split; [reflexivity|]. split; [reflexivity | congruence].
  - eexists. split; [reflexivity|].
    cbn [Design.total Design.success_rate Design.confirmed_count].
    split; [reflexivity|]. split; [reflexivity|]. split; [congruence | reflexivity].
Qed.

(** ** Reading labelled lines *)

Section Lines.
Import PyStr PyNum.

Lemma none_of_app (p : ascii -> bool) (a b : string) :
  none_of p (a ++ b) = none_of p a && none_of p b.
Proof.
  induction a as [|c a IH]; simpl; [reflexivity|].
  rewrite IH, andb_assoc. reflexivity.
Qed.

Lemma digit_is_not (x : ascii) (c : ascii) :
  isdigit x = false -> isdigit c = true -> Stdlib.Strings.Ascii.eqb c x = false.
Proof.
  intros Hx Hc. destruct (Stdlib.Strings.Ascii.eqb_spec c x) as [->|]; congruence.
Qed.

Lemma digits_without (x : ascii) (ds : string) :
  isdigit x = false -> all_digits ds = true ->
  none_of (fun c => Stdlib.Strings.Ascii.eqb c x) ds = true.
Proof. intros Hx. apply all_digits_none_of. intros c. apply digit_is_not, Hx. Qed.

Lemma split_on_last (sep : ascii) (a : string) :
  none_of (fun c => Stdlib.Strings.Ascii.eqb c sep) a = true -> split_on sep a = [a].
Proof.
  induction a as [|c a IH]; simpl; [reflexivity|].
  intros Ha. apply andb_true_iff in Ha as [Hc Ha]. apply negb_true_iff in Hc.
  rewrite Hc, IH by exact Ha. reflexivity.
Qed.

Lemma split_on_line (sep : ascii) (a b : string) :
  none_of (fun c => Stdlib.Strings.Ascii.eqb c sep) a = true ->
  split_on sep (a ++ String sep b) = a :: split_on sep b.
Proof.
  induction a as [|c a IH]; simpl.
  - intros _. rewrite Stdlib.Strings.Ascii.eqb_refl. reflexivity.
  - intros Ha. apply andb_true_iff in Ha as [Hc Ha]. apply negb_true_iff in Hc.
    rewrite Hc, IH by exact Ha. reflexivity.
Qed.

Lemma split_on_labelled (sep : ascii) (label ds rest : string) :
  none_of (fun c => Stdlib.Strings.Ascii.eqb c sep) label = true ->
  none_of (fun c => Stdlib.Strings.Ascii.eqb c sep) ds = true ->
  split_on sep (label ++ ds ++ String sep rest) = (label ++ ds)%string :: split_on sep rest.
Proof.
  intros Hl Hd. rewrite <- append_assoc. apply split_on_line.
  rewrite none_of_app, Hl, Hd. reflexivity.
Qed.

Lemma startswith_label (needle label ds : string) :
  none_of isdigit needle = true -> all_digits ds = true ->
  startswith needle (label ++ ds) = startswith needle label.
Proof.
  revert needle. induction label as [|b label IH]; intros [|a p] Hn Hd;
    try reflexivity.
  - simpl. destruct ds as [|d ds]; [reflexivity|].
    simpl in Hn, Hd. apply andb_true_iff in Hn as [Ha _], Hd as [Hd _].
    apply negb_true_iff in Ha.
    destruct (Stdlib.Strings.Ascii.eqb_spec a d) as [->|]; [congruence | reflexivity].
  - simpl. simpl in Hn. apply andb_true_iff in Hn as [_ Hp].
    rewrite IH by assumption. reflexivity.
Qed.

Lemma contains_eq (needle hay : string) :
  contains needle hay =
  startswith needle hay ||
  match hay with EmptyString => false | String _ t => contains needle t end.
Proof. destruct hay; reflexivity. Qed.

Lemma contains_label (needle label ds : string) :
  needle <> EmptyString -> none_of isdigit needle = true -> all_digits ds = true ->
  contains needle (label ++ ds) = contains needle label.
Proof.
  intros Hne Hn Hd. induction label as [|b label IH].
  - change (EmptyString ++ ds)%string with ds.
    destruct needle as [|a p]; [congruence|]. clear Hne.
    induction ds as [|d ds IHd]; [reflexivity|].
    rewrite contains_eq, IHd.
    + pose proof (startswith_label (String a p) EmptyString (String d ds) Hn Hd) as E.
      change (EmptyString ++ String d ds)%string with (String d ds) in E.
      rewrite E. reflexivity.
    + simpl in Hd. apply andb_true_iff in Hd. tauto.
  - rewrite (contains_eq needle (String b label ++ ds)).
    rewrite startswith_label by assumption.
    change (String b label ++ ds)%string with (String b (label ++ ds)).
    cbv iota. rewrite IH. rewrite (contains_eq needle (String b label)). reflexivity.
Qed.

Lemma contains_prefix (needle rest : string) : contains needle (needle ++ rest) = true.
Proof. apply contains_spec. exists EmptyString, rest. reflexivity. Qed.

Lemma split_ws_word (s : string) :
  s <> EmptyString -> none_of isspace s = true -> split_ws s = [s].
Proof.
  induction s as [|c t IH]; intros Hne Hs; [congruence|].
  simpl in Hs. apply andb_true_iff in Hs as [Hc Ht]. apply negb_true_iff in Hc.
  cbn [split_ws]. rewrite Hc. destruct t as [|c' t']; [reflexivity|].
  assert (Hc' : isspace c' = false).
  { simpl in Ht. apply andb_true_iff in Ht as [Hx _]. apply negb_true_iff, Hx. }
  rewrite Hc', IH by (auto; discriminate). reflexivity.
Qed.

Lemma after_colon_label (label value : string) :
  none_of (fun c => Stdlib.Strings.Ascii.eqb c ":") label = true ->
  none_of (fun c => Stdlib.Strings.Ascii.eqb c ":") value = true ->
  after_colon (label ++ String ":" value) = Returned value.
Proof.
  intros Hl Hv. unfold after_colon.
  rewrite split_on_line, split_on_last by assumption. reflexivity.
Qed.

Lemma digits_spaceless (ds : string) : all_digits ds = true -> none_of isspace ds = true.
Proof. apply all_digits_none_of. exact digits_no_space. Qed.

Lemma int_after_colon_label (label ds : string) :
  none_of (fun c => Stdlib.Strings.Ascii.eqb c ":") label = true ->
  ds <> EmptyString -> all_digits ds = true ->
  int_after_colon (label ++ String ":" (String " " ds)) = Returned (digits_value ds 0).
Proof.
  intros Hl Hne Hd. unfold int_after_colon.
  rewrite after_colon_label; [|exact Hl|].
  - cbn [obind]. unfold strip. cbn [lstrip]. change (isspace " ") with true. cbv iota.
    rewrite lstrip_id, rstrip_id by (apply digits_spaceless, Hd).
    apply py_int_digits; assumption.
  - cbn [none_of]. rewrite digits_without by (auto). reflexivity.
Qed.

Lemma first_int_after_colon_label (label ds : string) :
  none_of (fun c => Stdlib.Strings.Ascii.eqb c ":") label = true ->
  ds <> EmptyString -> all_digits ds = true ->
  first_int_after_colon (label ++ String ":" (String " " ds)) =
  Returned (digits_value ds 0).
Proof.
  intros Hl Hne Hd. unfold first_int_after_colon.
  rewrite after_colon_label; [|exact Hl|].
  - cbn [obind split_ws]. change (isspace " ") with true. cbv iota.
    rewrite split_ws_word by (auto using digits_spaceless).
    cbn. apply py_int_digits; assumption.
  - cbn [none_of]. rewrite digits_without by (auto). reflexivity.
Qed.

Lemma parsed_stats_text (total confirmed cancelled guests today : N) :
  parsed_stats (stats_text total confirmed cancelled guests today) =
  Returned {| total_bookings := Z.of_N total;
              confirmed_bookings := Z.of_N confirmed;
              cancelled_bookings := Z.of_N cancelled;
              total_guests := Z.of_N guests;
              today_bookings := Z.of_N today;
              success_rate := float_zero |}.
Proof.
  destruct (str_N_spec total) as (Hn1 & Hd1 & Hv1).
  destruct (str_N_spec confirmed) as (Hn2 & Hd2 & Hv2).
  destruct (str_N_spec cancelled) as (Hn3 & Hd3 & Hv3).
  destruct (str_N_spec guests) as (Hn4 & Hd4 & Hv4).
  destruct (str_N_spec today) as (Hn5 & Hd5 & Hv5).
  unfold parsed_stats, stats_text.
  rewrite contains_prefix.
  assert (Hnl : isdigit newline = false) by reflexivity.
  assert (Hline : forall label ds : string,
            none_of (fun c => Stdlib.Strings.Ascii.eqb c newline) label = true ->
            all_digits ds = true ->
            none_of (fun c => Stdlib.Strings.Ascii.eqb c newline) (label ++ ds) = true).
  { intros label ds Hl Hd. rewrite none_of_app, Hl, digits_without by auto. reflexivity. }
  rewrite split_on_line by reflexivity.
  rewrite !split_on_labelled by (auto using digits_without).
  rewrite split_on_last by (apply Hline; [reflexivity | assumption]).
  cbn [tail for_each].
  (* Total Bookings *)
  unfold stats_line at 1.
  rewrite (contains_label "Total Bookings:" "Total Bookings: ") by (auto; discriminate).
  change (contains "Total Bookings:" "Total Bookings: ") with true. cbv iota.
  change ("Total Bookings: " ++ str_N total)%string
    with ("Total Bookings" ++ String ":" (String " " (str_N total)))%string.
  rewrite int_after_colon_label, Hv1 by (auto). cbn [obind].
  (* Confirmed *)
  unfold stats_line at 1.
  rewrite (contains_label "Total Bookings:" "Confirmed: ") by (auto; discriminate).
  change (contains "Total Bookings:" "Confirmed: ") with false. cbv iota.
  rewrite (contains_label "Confirmed:" "Confirmed: ") by (auto; discriminate).
  change (contains "Confirmed:" "Confirmed: ") with true. cbv iota.
  change ("Confirmed: " ++ str_N confirmed)%string
    with ("Confirmed" ++ String ":" (String " " (str_N confirmed)))%string.
  rewrite first_int_after_colon_label, Hv2 by (auto). cbn [obind].
  (* Cancelled *)
  unfold stats_line at 1.
  rewrite (contains_label "Total Bookings:" "Cancelled: ") by (auto; discriminate).
  change (contains "Total Bookings:" "Cancelled: ") with false. cbv iota.
  rewrite (contains_label "Confirmed:" "Cancelled: ") by (auto; discriminate).
  change (contains "Confirmed:" "Cancelled: ") with false. cbv iota.
  rewrite (contains_label "Cancelled:" "Cancelled: ") by (auto; discriminate).
  change (contains "Cancelled:" "Cancelled: ") with true. cbv iota.
  change ("Cancelled: " ++ str_N cancelled)%string
    with ("Cancelled" ++ String ":" (String " " (str_N cancelled)))%string.
  rewrite first_int_after_colon_label, Hv3 by (auto). cbn [obind].
  (* Total Guests *)
  unfold stats_line at 1.
  rewrite (contains_label "Total Bookings:" "Total Guests: ") by (auto; discriminate).
  change (contains "Total Bookings:" "Total Guests: ") with false. cbv iota.
  rewrite (contains_label "Confirmed:" "Total Guests: ") by (auto; discriminate).
  change (contains "Confirmed:" "Total Guests: ") with false. cbv iota.
  rewrite (contains_label "Cancelled:" "Total Guests: ") by (auto; discriminate).
  change (contains "Cancelled:" "Total Guests: ") with false. cbv iota.
  rewrite (contains_label "Total Guests" "Total Guests: ") by (auto; discriminate).
  change (contains "Total Guests" "Total Guests: ") with true. cbv iota.
  change ("Total Guests: " ++ str_N guests)%string
    with ("Total Guests" ++ String ":" (String " " (str_N guests)))%string.
  rewrite int_after_colon_label, Hv4 by (auto). cbn [obind].
  (* Today's Bookings *)
  unfold stats_line at 1.
  rewrite (contains_label "Total Bookings:" "Today's Bookings: ") by (auto; discriminate).
  change (contains "Total Bookings:" "Today's Bookings: ") with false. cbv iota.
  rewrite (contains_label "Confirmed:" "Today's Bookings: ") by (auto; discriminate).
  change (contains "Confirmed:" "Today's Bookings: ") with false. cbv iota.
  rewrite (contains_label "Cancelled:" "Today's Bookings: ") by (auto; discriminate).
  change (contains "Cancelled:" "Today's Bookings: ") with false. cbv iota.
  rewrite (contains_label "Total Guests" "Today's Bookings: ") by (auto; discriminate).
  change (contains "Total Guests" "Today's Bookings: ") with false. cbv iota.
  rewrite (contains_label "Today's Bookings:" "Today's Bookings: ") by (auto; discriminate).
  change (contains "Today's Bookings:" "Today's Bookings: ") with true. cbv iota.
  change ("Today's Bookings: " ++ str_N today)%string
    with ("Today's Bookings" ++ String ":" (String " " (str_N today)))%string.
  rewrite int_after_colon_label, Hv5 by (auto). cbn [obind].
  reflexivity.
Qed.

End Lines.

(** C3, as the code has it: [get_stats] returns the six aggregates as a
    record, and reads their values out of the manager's text: without the
    header "Booking Statistics" all of them are zero; from a text that
    carries the header and one labelled line for each count, the counts
    are the numbers written on those lines. *)
Theorem stats_read_back_from_text
    {env : Type} `{Bot env} (result : string) (w : world env) (b' : env) :
  manager_get_booking_stats (bot w) = (Returned result, b') ->
  (~ occurs_in "Booking Statistics" result ->
   get_stats w = (Returned (stats_response stats_zero), World b' (sessions w))) /\
  (forall total confirmed cancelled guests today : N,
     result = stats_text total confirmed cancelled guests today ->
     get_stats w =
     (Returned {| StatsResponse.total_bookings := Z.of_N total;
                  StatsResponse.confirmed_bookings := Z.of_N confirmed;
                  StatsResponse.cancelled_bookings := Z.of_N cancelled;
                  StatsResponse.total_guests := Z.of_N guests;
                  StatsResponse.today_bookings := Z.of_N today;
                  StatsResponse.success_rate := PyNum.float_zero;
                  StatsResponse.success := None;
                  StatsResponse.error := None |},
      World b' (sessions w))).
Proof.
  intros Hm. split.
  - intros Hno. apply (get_stats_returned result); [exact Hm|].
    unfold parsed_stats.
    destruct (PyStr.contains "Booking Statistics" result) eqn:Hc; [|reflexivity].
    apply contains_spec in Hc. contradiction.
  - intros total confirmed cancelled guests today ->.
    rewrite (get_stats_returned _ _ _ _ Hm (parsed_stats_text _ _ _ _ _)).
    reflexivity.
Qed.

Lemma stats_read_back_from_text_witness :
  (~ occurs_in "Booking Statistics" (stats_text 5 3 2 12 1) ->
   get_stats (Scripted.answering [] (stats_text 5 3 2 12 1)) =
   (Returned (stats_response stats_zero),
    Scripted.answering [] (stats_text 5 3 2 12 1))) /\
  (forall total confirmed cancelled guests today : N,
     stats_text 5 3 2 12 1 = stats_text total confirmed cancelled guests today ->
     get_stats (Scripted.answering [] (stats_text 5 3 2 12 1)) =
     (Returned {| StatsResponse.total_bookings := Z.of_N total;
                  StatsResponse.confirmed_bookings := Z.of_N confirmed;
                  StatsResponse.cancelled_bookings := Z.of_N cancelled;
                  StatsResponse.total_guests := Z.of_N guests;
                  StatsResponse.today_bookings := Z.of_N today;
                  StatsResponse.success_rate := PyNum.float_zero;
                  StatsResponse.success := None;
                  StatsResponse.error := None |},
      Scripted.answering [] (stats_text 5 3 2 12 1))).
Proof.
  exact (stats_read_back_from_text (stats_text 5 3 2 12 1)
           (Scripted.answering [] (stats_text 5 3 2 12 1))
           (bot (Scripted.answering [] (stats_text 5 3 2 12 1)))
           eq_refl).
Defined.

(** The numbers of a concrete text, the rate included. *)
Example stats_of_a_text :
  fst (get_stats
         (Scripted.answering []
            (stats_text 5 3 2 12 1 ++ String newline "Success Rate: 60.0%"))) =
  Returned {| StatsResponse.total_bookings := 5;
              StatsResponse.confirmed_bookings := 3;
              StatsResponse.cancelled_bookings := 2;
              StatsResponse.total_guests := 12;
              StatsResponse.today_bookings := 1;
              StatsResponse.success_rate := PyNum.Finite 60;
              StatsResponse.success := None;
              StatsResponse.error := None |}.
Proof. vm_compute. reflexivity. Qed.

(** A labelled line without a number makes the whole request fail. *)
Example stats_of_a_broken_text :
  fst (get_stats
         (Scripted.answering []
            ("Booking Statistics" ++ String newline "Total Bookings: n/a"))) =
  Returned {| StatsResponse.total_bookings := 0;
              StatsResponse.confirmed_bookings := 0;
              StatsResponse.cancelled_bookings := 0;
              StatsResponse.total_guests := 0;
              StatsResponse.today_bookings := 0;
              StatsResponse.success_rate := PyNum.float_zero;
              StatsResponse.success := Some false;
              StatsResponse.error :=
                Some "invalid literal for int() with base 10: 'n/a'" |}.
Proof. vm_compute. reflexivity. Qed.

(** C3, as claimed, fails: over one and the same ledger, two runs that
    differ in nothing but the manager's text deliver different numbers. *)
Lemma stats_read_from_wording : ~ stats_ignore_wording.
Proof.
  intros Hc.
  specialize (Hc [] (stats_text 5 3 2 12 1) (stats_text 1 1 0 2 0)).
  vm_compute in Hc. discriminate Hc.
Qed.

(** * Further properties of the endpoints *)

(** ** Sessions of the chat endpoint *)

Section ChatSessions.
Context {env : Type} `{Bot env}.

(** X5: a chat request whose processing returns is answered with the
    manager's text under the session identifier in use (the one of the
    request when it has one, a fresh UUID otherwise); that session is
    counted once more, keeps its creation time when it existed, and gets a
    last activity; every other session is left as it was. *)
Theorem chat_counts_the_session
    (request : ChatRequest.t) (w : world env) (session_id text : string)
    (b0 b1 b2 : env) :
  (session_id, b0) =
    (if truthy (ChatRequest.session_id request)
     then (default "" (ChatRequest.session_id request), bot w)
     else uuid4 (bot w)) ->
  track_event
    (ChatRequestEvent session_id (String.length (ChatRequest.message request))
       (truthy (ChatRequest.user_id request))) b0 = (Returned tt, b1) ->
  manager_process_user_input (ChatRequest.message request) b1 = (Returned text, b2) ->
  exists (w' : world env) (entry : Session.t),
    chat_with_bot request w =
    (Returned {| ChatResponse.response := text;
                 ChatResponse.session_id := Some session_id;
                 ChatResponse.success := true;
                 ChatResponse.error := None |}, w') /\
    sessions w' !! session_id = Some entry /\
    Session.message_count entry =
      (match sessions w !! session_id with
       | Some old => Session.message_count old
       | None => 0
       end + 1)%Z /\
    (forall old : Session.t,
       sessions w !! session_id = Some old ->
       Session.created_at entry = Session.created_at old) /\
    is_Some (Session.last_activity entry) /\
    (forall other : string,
       other <> session_id -> sessions w' !! other = sessions w !! other).
Proof.
  intros Hsid Hev Hp.
  unfold chat_with_bot, chat_body. run.
  destruct (truthy (ChatRequest.session_id request)).
  - injection Hsid as -> ->. cbn [bot sessions]. rewrite Hev. cbn [bot sessions].
    rewrite Hp. cbn [bot sessions].
    destruct (sessions w !! default "" (ChatRequest.session_id request)) as [old|] eqn:Hold.
    + cbn [bot sessions]. destruct (datetime_now b2) as [t' b4]. cbn [bot sessions].
      eexists _, _. split; [reflexivity|]. cbn [sessions].
      split; [apply lookup_insert_eq|]. cbn [Session.message_count Session.created_at
                                              Session.last_activity].
      split; [reflexivity|]. split; [intros ? [= <-]; reflexivity|].
      split; [eauto|]. intros other Ho. apply lookup_insert_ne. congruence.
    + cbn [bot sessions]. destruct (datetime_now b2) as [t b3]. cbn [bot sessions].
      destruct (datetime_now b3) as [t' b4]. cbn [bot sessions].
      eexists _, _. split; [reflexivity|]. cbn [sessions].
      split; [apply lookup_insert_eq|]. cbn [Session.message_count Session.created_at
                                              Session.last_activity].
      split; [reflexivity|]. split; [intros ? [=]|].
      split; [eauto|]. intros other Ho. apply lookup_insert_ne. congruence.
  - destruct (uuid4 (bot w)) as [sid bu]. injection Hsid as -> ->.
    cbn [bot sessions]. rewrite Hev. cbn [bot sessions].
    rewrite Hp. cbn [bot sessions].
    destruct (sessions w !! sid) as [old|] eqn:Hold.
    + cbn [bot sessions]. destruct (datetime_now b2) as [t' b4]. cbn [bot sessions].
      eexists _, _. split; [reflexivity|]. cbn [sessions].
      split; [apply lookup_insert_eq|]. cbn [Session.message_count Session.created_at
                                              Session.last_activity].
      split; [reflexivity|]. split; [intros ? [= <-]; reflexivity|].
      split; [eauto|]. intros other Ho. apply lookup_insert_ne. congruence.
    + cbn [bot sessions]. destruct (datetime_now b2) as [t b3]. cbn [bot sessions].
      destruct (datetime_now b3) as [t' b4]. cbn [bot sessions].
      eexists _, _. split; [reflexivity|]. cbn [sessions].
      split; [apply lookup_insert_eq|]. cbn [Session.message_count Session.created_at
                                              Session.last_activity].
      split; [reflexivity|]. split; [intros ? [=]|].
      split; [eauto|]. intros other Ho. apply lookup_insert_ne. congruence.
Qed.

(** X6: a chat request whose processing raises, after the event was
    tracked, is not counted: the sessions are left as they were, the reply
    is the apology, and the response carries the session identifier of the
    request as it came, none when the request had none. *)
Theorem chat_failure_is_not_counted
    (request : ChatRequest.t) (w : world env) (session_id e : string)
    (b0 b1 b2 b3 : env) :
  (session_id, b0) =
    (if truthy (ChatRequest.session_id request)
     then (default "" (ChatRequest.session_id request), bot w)
     else uuid4 (bot w)) ->
  track_event
    (ChatRequestEvent session_id (String.length (ChatRequest.message request))
       (truthy (ChatRequest.user_id request))) b0 = (Returned tt, b1) ->
  manager_process_user_input (ChatRequest.message request) b1 = (Raised e, b2) ->
  track_error e
    (ChatContext (ChatRequest.session_id request) (ChatRequest.user_id request)) b2 =
    (Returned tt, b3) ->
  chat_with_bot request w =
  (Returned {| ChatResponse.response := apology;
               ChatResponse.session_id := ChatRequest.session_id request;
               ChatResponse.success := false;
               ChatResponse.error := Some e |},
   World b3 (sessions w)).
Proof.
  intros Hsid Hev Hp He.
  unfold chat_with_bot, chat_body, chat_handler. run.
  destruct (truthy (ChatRequest.session_id request)).
  - injection Hsid as -> ->. cbn [bot sessions]. rewrite Hev. cbn [bot sessions].
    rewrite Hp. cbn [bot sessions]. rewrite He. reflexivity.
  - destruct (uuid4 (bot w)) as [sid bu]. injection Hsid as -> ->.
    cbn [bot sessions]. rewrite Hev. cbn [bot sessions].
    rewrite Hp. cbn [bot sessions]. rewrite He. reflexivity.
Qed.

End ChatSessions.

Lemma chat_counts_the_session_witness :
  exists (w' : world Scripted.t) (entry : Session.t),
    chat_with_bot
      {| ChatRequest.message := "hello"; ChatRequest.session_id := Some "s-1";
         ChatRequest.user_id := None |}
      (Scripted.answering [] "Hi!") =
    (Returned {| ChatResponse.response := "Hi!";
                 ChatResponse.session_id := Some "s-1";
                 ChatResponse.success := true;
                 ChatResponse.error := None |}, w') /\
    sessions w' !! "s-1" = Some entry /\
    Session.message_count entry =
      (match sessions (Scripted.answering [] "Hi!") !! "s-1" with
       | Some old => Session.message_count old
       | None => 0
       end + 1)%Z /\
    (forall old : Session.t,
       sessions (Scripted.answering [] "Hi!") !! "s-1" = Some old ->
       Session.created_at entry = Session.created_at old) /\
    is_Some (Session.last_activity entry) /\
    (forall other : string,
       other <> "s-1" ->
       sessions w' !! other = sessions (Scripted.answering [] "Hi!") !! other).
Proof.
  exact (chat_counts_the_session
           {| ChatRequest.message := "hello"; ChatRequest.session_id := Some "s-1";
              ChatRequest.user_id := None |}
           (Scripted.answering [] "Hi!") "s-1" "Hi!"
           (bot (Scripted.answering [] "Hi!"))
           (bot (Scripted.answering [] "Hi!"))
           (bot (Scripted.answering [] "Hi!"))
           eq_refl eq_refl eq_refl).
Defined.

Lemma chat_failure_is_not_counted_witness :
  chat_with_bot
    {| ChatRequest.message := "hello"; ChatRequest.session_id := None;
       ChatRequest.user_id := None |}
    (Scripted.failing [] "model unavailable") =
  (Returned {| ChatResponse.response := apology;
               ChatResponse.session_id := None;
               ChatResponse.success := false;
               ChatResponse.error := Some "model unavailable" |},
   World (bot (Scripted.failing [] "model unavailable"))
     (sessions (Scripted.failing [] "model unavailable"))).
Proof.
  exact (chat_failure_is_not_counted
           {| ChatRequest.message := "hello"; ChatRequest.session_id := None;
              ChatRequest.user_id := None |}
           (Scripted.failing [] "model unavailable")
           "00000000-0000-4000-8000-000000000000" "model unavailable"
           (bot (Scripted.failing [] "model unavailable"))
           (bot (Scripted.failing [] "model unavailable"))
           (bot (Scripted.failing [] "model unavailable"))
           (bot (Scripted.failing [] "model unavailable"))
           eq_refl eq_refl eq_refl eq_refl).
Defined.

(** ** Failures of the manager *)

(** X7: when the manager raises in [create_booking], [cancel_booking],
    [search_bookings] or [get_stats] and the error is reported, the
    endpoint does not raise: it answers with a response marked as failed
    that carries the text of the error, and with no booking and no
    number. *)
Theorem manager_failure_is_reported
    {env : Type} `{Bot env} (w : world env) (e : string) (b1 b2 : env) :
  (forall request : BookingRequest.t,
     manager_create_booking (booking_data_of request) (bot w) = (Raised e, b1) ->
     track_error e (CreateBookingContext request) b1 = (Returned tt, b2) ->
     create_booking request w =
     (Returned {| BookingResponse.booking_id := None;
                  BookingResponse.success := false;
                  BookingResponse.message := "Error creating booking: " ++ e;
                  BookingResponse.booking_data := None;
                  BookingResponse.error := Some e |},
      World b2 (sessions w))) /\
  (forall booking_id : string,
     manager_cancel_booking booking_id (bot w) = (Raised e, b1) ->
     track_error e (CancelBookingContext booking_id) b1 = (Returned tt, b2) ->
     cancel_booking booking_id w =
     (Returned {| BookingResponse.booking_id := None;
                  BookingResponse.success := false;
                  BookingResponse.message := "Error cancelling booking: " ++ e;
                  BookingResponse.booking_data := None;
                  BookingResponse.error := Some e |},
      World b2 (sessions w))) /\
  (forall query : string,
     manager_search_bookings query (bot w) = (Raised e, b1) ->
     track_error e (SearchBookingsContext query) b1 = (Returned tt, b2) ->
     search_bookings query w =
     (Returned {| BookingListResponse.bookings := [];
                  BookingListResponse.total_count := 0;
                  BookingListResponse.success := Some false;
                  BookingListResponse.error := Some e |},
      World b2 (sessions w))) /\
  (manager_get_booking_stats (bot w) = (Raised e, b1) ->
   track_error e GetStatsContext b1 = (Returned tt, b2) ->
   get_stats w =
   (Returned {| StatsResponse.total_bookings := 0;
                StatsResponse.confirmed_bookings := 0;
                StatsResponse.cancelled_bookings := 0;
                StatsResponse.total_guests := 0;
                StatsResponse.today_bookings := 0;
                StatsResponse.success_rate := PyNum.float_zero;
                StatsResponse.success := Some false;
                StatsResponse.error := Some e |},
    World b2 (sessions w))).
Proof.
  repeat split.
  - intros request Hm He. unfold create_booking. run. rewrite Hm. cbn [bot sessions].
    rewrite He. reflexivity.
  - intros booking_id Hm He. unfold cancel_booking. run. rewrite Hm. cbn [bot sessions].
    rewrite He. reflexivity.
  - intros query Hm He. unfold search_bookings. run. rewrite Hm. cbn [bot sessions].
    rewrite He. reflexivity.
  - intros Hm He. unfold get_stats. run. rewrite Hm. cbn [bot sessions].
    rewrite He. reflexivity.
Qed.

Lemma manager_failure_is_reported_witness :
  create_booking
    {| BookingRequest.name := "Alice"; BookingRequest.contact := "a@x.com";
       BookingRequest.date := "2024-06-01"; BookingRequest.time := "19:00";
       BookingRequest.guests := 2; BookingRequest.special_requirements := None |}
    (Scripted.failing [] "ledger locked") =
  (Returned {| BookingResponse.booking_id := None;
               BookingResponse.success := false;
               BookingResponse.message := "Error creating booking: ledger locked";
               BookingResponse.booking_data := None;
               BookingResponse.error := Some "ledger locked" |},
   Scripted.failing [] "ledger locked") /\
  cancel_booking "BK0001" (Scripted.failing [] "ledger locked") =
  (Returned {| BookingResponse.booking_id := None;
               BookingResponse.success := false;
               BookingResponse.message := "Error cancelling booking: ledger locked";
               BookingResponse.booking_data := None;
               BookingResponse.error := Some "ledger locked" |},
   Scripted.failing [] "ledger locked") /\
  search_bookings "alice" (Scripted.failing [] "ledger locked") =
  (Returned {| BookingListResponse.bookings := [];
               BookingListResponse.total_count := 0;
               BookingListResponse.success := Some false;
               BookingListResponse.error := Some "ledger locked" |},
   Scripted.failing [] "ledger locked") /\
  get_stats (Scripted.failing [] "ledger locked") =
  (Returned {| StatsResponse.total_bookings := 0;
               StatsResponse.confirmed_bookings := 0;
               StatsResponse.cancelled_bookings := 0;
               StatsResponse.total_guests := 0;
               StatsResponse.today_bookings := 0;
               StatsResponse.success_rate := PyNum.float_zero;
               StatsResponse.success := Some false;
               StatsResponse.error := Some "ledger locked" |},
   Scripted.failing [] "ledger locked").
Proof.
  destruct (manager_failure_is_reported (Scripted.failing [] "ledger locked")
              "ledger locked"
              (bot (Scripted.failing [] "ledger locked"))
              (bot (Scripted.failing [] "ledger locked")))
    as (Hcreate & Hcancel & Hsearch & Hstats).
  split; [exact (Hcreate _ eq_refl eq_refl)|].
  split; [exact (Hcancel _ eq_refl eq_refl)|].
  split; [exact (Hsearch _ eq_refl eq_refl)|].
  exact (Hstats eq_refl eq_refl).
Defined.

(** ** Creating, fetching and listing *)

Section Ledger.
Context {env : Type} `{Bot env}.

Lemma get_booking_run (booking_id : string) (w : world env) :
  get_booking booking_id w =
  (Returned
     match ledger_get booking_id (bookings (bot w)) with
     | Some d =>
         {| BookingResponse.booking_id := Some booking_id;
            BookingResponse.success := true;
            BookingResponse.message := "Booking details retrieved successfully";
            BookingResponse.booking_data := Some d;
            BookingResponse.error := None |}
     | None =>
         {| BookingResponse.booking_id := None;
            BookingResponse.success := false;
            BookingResponse.message := "Booking " ++ booking_id ++ " not found";
            BookingResponse.booking_data := None;
            BookingResponse.error := Some "Booking not found" |}
     end, w).
Proof.
  unfold get_booking. run.
  destruct (ledger_get booking_id (bookings (bot w))); reflexivity.
Qed.

(** X8: when [create_booking] returns an identifier, fetching that
    identifier right afterwards returns the very booking data the create
    response carried; when the create response carried none, the fetch
    reports that the booking is not found. *)
Theorem created_booking_is_what_get_returns
    (request : BookingRequest.t) (w w' : world env) (r : BookingResponse.t) (i : string) :
  create_booking request w = (Returned r, w') ->
  BookingResponse.booking_id r = Some i ->
  exists g : BookingResponse.t,
    get_booking i w' = (Returned g, w') /\
    BookingResponse.booking_data g = BookingResponse.booking_data r /\
    (BookingResponse.success g = true <-> is_Some (BookingResponse.booking_data r)) /\
    (BookingResponse.booking_data r = None ->
     BookingResponse.error g = Some "Booking not found").
Proof.
  unfold create_booking. run.
  destruct (manager_create_booking (booking_data_of request) (bot w))
    as [[result|e] b1]; cbn [bot sessions].
  - intros [= <- <-] Hi. rewrite get_booking_run. eexists. split; [reflexivity|].
    cbn [created_response BookingResponse.booking_id BookingResponse.booking_data] in *.
    rewrite Hi. cbn [bot].
    destruct (ledger_get i (bookings b1)) as [d|]; cbn.
    + repeat split; eauto. discriminate.
    + repeat split; try discriminate. intros [x Hx]. discriminate Hx.
  - destruct (track_error e (CreateBookingContext request) b1) as [[[]|e'] b2];
      cbn [bot sessions].
    + intros [= <- <-] Hi. discriminate Hi.
    + intros [=].
Qed.

(** X9: every booking [list_bookings] returns can be fetched with
    [get_booking], and every booking [get_booking] finds is among those
    [list_bookings] returns when no filter is given. *)
Theorem listed_bookings_can_be_fetched (status date : option string) (w : world env) :
  exists r r0 : BookingListResponse.t,
    list_bookings status date w = (Returned r, w) /\
    list_bookings None None w = (Returned r0, w) /\
    (forall b : BookingDetails.t,
       In b (BookingListResponse.bookings r) ->
       exists g : BookingResponse.t,
         get_booking (BookingDetails.booking_id b) w = (Returned g, w) /\
         BookingResponse.success g = true) /\
    (forall (i : string) (g : BookingResponse.t) (d : details),
       get_booking i w = (Returned g, w) ->
       BookingResponse.booking_data g = Some d ->
       In (booking_details i d) (BookingListResponse.bookings r0)).
Proof.
  unfold list_bookings. run. rewrite !list_loop. cbn [app].
  eexists _, _. split; [reflexivity|]. split; [reflexivity|].
  cbn [BookingListResponse.bookings]. split.
  - intros b Hb. apply in_map_iff in Hb as ([i d] & <- & Hin).
    apply filter_In in Hin as [Hin _]. cbn [fst snd booking_details BookingDetails.booking_id].
    rewrite get_booking_run. eexists. split; [reflexivity|].
    destruct (ledger_get i (bookings (bot w))) as [d'|] eqn:Hg; [reflexivity|].
    exfalso. apply ledger_get_none in Hg. apply Hg.
    apply in_map_iff. exists (i, d). auto.
  - intros i g d Hg Hd. rewrite get_booking_run in Hg. injection Hg as <-.
    destruct (ledger_get i (bookings (bot w))) as [d'|] eqn:Hl; [|discriminate Hd].
    cbn in Hd. injection Hd as ->. apply ledger_get_some in Hl.
    apply in_map_iff. exists (i, d). split; [reflexivity|].
    apply filter_In. split; [exact Hl | reflexivity].
Qed.

End Ledger.

Lemma created_booking_is_what_get_returns_witness :
  exists g : BookingResponse.t,
    get_booking "BK0001"
      (Scripted.answering [("BK0001", {[ "name" := "Alice" ]})]
         "Booking created successfully! ID: BK0001") =
    (Returned g,
     Scripted.answering [("BK0001", {[ "name" := "Alice" ]})]
       "Booking created successfully! ID: BK0001") /\
    BookingResponse.booking_data g =
    BookingResponse.booking_data
      (created_response "Booking created successfully! ID: BK0001"
         [("BK0001", {[ "name" := "Alice" ]})]) /\
    (BookingResponse.success g = true <->
     is_Some (BookingResponse.booking_data
                (created_response "Booking created successfully! ID: BK0001"
                   [("BK0001", {[ "name" := "Alice" ]})]))) /\
    (BookingResponse.booking_data
       (created_response "Booking created successfully! ID: BK0001"
          [("BK0001", {[ "name" := "Alice" ]})]) = None ->
     BookingResponse.error g = Some "Booking not found").
Proof.
  exact (created_booking_is_what_get_returns
           {| BookingRequest.name := "Alice"; BookingRequest.contact := "a@x.com";
              BookingRequest.date := "2024-06-01"; BookingRequest.time := "19:00";
              BookingRequest.guests := 2; BookingRequest.special_requirements := None |}
           (Scripted.answering [("BK0001", {[ "name" := "Alice" ]})]
              "Booking created successfully! ID: BK0001")
           (Scripted.answering [("BK0001", {[ "name" := "Alice" ]})]
              "Booking created successfully! ID: BK0001")
           (created_response "Booking created successfully! ID: BK0001"
              [("BK0001", {[ "name" := "Alice" ]})])
           "BK0001" eq_refl eq_refl).
Defined.

(** ** The filters of [list_bookings] *)

Lemma lower_empty (s : string) : PyStr.lower s = "" <-> s = "".
Proof. destruct s; cbn; split; congruence. Qed.

Section Filters.
Context {env : Type} `{Bot env}.

Lemma list_bookings_run (status date : option string) (w : world env) :
  list_bookings status date w =
  (Returned
     {| BookingListResponse.bookings :=
          List.map (fun item => booking_details (fst item) (snd item))
            (List.filter (selected status date) (bookings (bot w)));
        BookingListResponse.total_count :=
          length (List.map (fun item => booking_details (fst item) (snd item))
                    (List.filter (selected status date) (bookings (bot w))));
        BookingListResponse.success := None;
        BookingListResponse.error := None |}, w).
Proof. unfold list_bookings. run. rewrite list_loop. reflexivity. Qed.

(** X10: the status filter of [list_bookings] ignores letter case: two
    status values that agree once lower-cased select the same bookings. *)
Theorem list_status_ignores_case (s1 s2 : string) (date : option string) (w : world env) :
  PyStr.lower s1 = PyStr.lower s2 ->
  list_bookings (Some s1) date w = list_bookings (Some s2) date w.
Proof.
  intros Hl. rewrite !list_bookings_run.
  assert (Hsel : forall item : string * details,
            selected (Some s1) date item = selected (Some s2) date item).
  { intros item. unfold selected, truthy. cbn [default].
    assert (Ht : (s1 =s? "") = (s2 =s? "")).
    { destruct (Stdlib.Strings.String.eqb_spec s1 "") as [->|H1],
               (Stdlib.Strings.String.eqb_spec s2 "") as [->|H2]; try reflexivity.
      - exfalso. apply H2, lower_empty. rewrite <- Hl. reflexivity.
      - exfalso. apply H1, lower_empty. rewrite Hl. reflexivity. }
    unfold id. rewrite Ht, Hl. reflexivity. }
  assert (Hf : List.filter (selected (Some s1) date) (bookings (bot w)) =
               List.filter (selected (Some s2) date) (bookings (bot w))).
  { induction (bookings (bot w)) as [|x l IH]; cbn [List.filter]; [reflexivity|].
    rewrite Hsel, IH. reflexivity. }
  rewrite Hf. reflexivity.
Qed.

(** X11: every booking [list_bookings] returns has the status asked for,
    up to letter case, and the date asked for; a booking stored without a
    status, or without a date, is never returned when that filter is
    supplied. *)
Theorem listed_bookings_meet_the_filters
    (status date : option string) (w : world env) :
  exists r : BookingListResponse.t,
    list_bookings status date w = (Returned r, w) /\
    forall b : BookingDetails.t,
      In b (BookingListResponse.bookings r) ->
      (forall s : string,
         status = Some s -> s <> "" ->
         PyStr.lower (BookingDetails.status b) = PyStr.lower s /\
         BookingDetails.status b <> "") /\
      (forall d : string,
         date = Some d -> d <> "" ->
         BookingDetails.date b = d /\ BookingDetails.date b <> "").
Proof.
  rewrite list_bookings_run. eexists. split; [reflexivity|].
  cbn [BookingListResponse.bookings]. intros b Hb.
  apply in_map_iff in Hb as ([i dd] & <- & Hin).
  apply filter_In in Hin as [_ Hsel]. unfold selected in Hsel.
  cbn [fst snd booking_details BookingDetails.status BookingDetails.date] in *.
  apply andb_true_iff in Hsel as [Hs Hd]. split.
  - intros s -> Hne. unfold truthy in Hs. cbn [default] in Hs.
    unfold id in Hs.
    destruct (Stdlib.Strings.String.eqb_spec s "") as [E|_]; [congruence|].
    cbn [negb] in Hs. apply Stdlib.Strings.String.eqb_eq in Hs.
    split; [exact Hs|]. intros He. apply Hne, lower_empty.
    rewrite <- Hs, He. reflexivity.
  - intros d -> Hne. unfold truthy in Hd. cbn [default] in Hd.
    unfold id in Hd.
    destruct (Stdlib.Strings.String.eqb_spec d "") as [E|_]; [congruence|].
    cbn [negb] in Hd. apply Stdlib.Strings.String.eqb_eq in Hd.
    split; [exact Hd | congruence].
Qed.

Lemma filter_without_filters (l : ledger) : List.filter (selected None None) l = l.
Proof. induction l as [|x l IH]; cbn; [reflexivity | f_equal; exact IH]. Qed.

Lemma filtered_is_sublist (status date : option string) (l : ledger) :
  sublist
    (List.map (fun item => booking_details (fst item) (snd item))
       (List.filter (selected status date) l))
    (List.map (fun item => booking_details (fst item) (snd item)) l).
Proof.
  induction l as [|x l IH]; cbn [List.filter List.map].
  - constructor.
  - destruct (selected status date x); cbn [List.map].
    + apply sublist_skip, IH.
    + apply sublist_cons, IH.
Qed.

(** X12: filters only ever take bookings away: what [list_bookings]
    returns under any filters is a subsequence, in the same order, of
    what it returns without filters, and its count never exceeds the size
    of the ledger. *)
Theorem filters_only_narrow (status date : option string) (w : world env) :
  exists r r0 : BookingListResponse.t,
    list_bookings status date w = (Returned r, w) /\
    list_bookings None None w = (Returned r0, w) /\
    sublist (BookingListResponse.bookings r) (BookingListResponse.bookings r0) /\
    BookingListResponse.total_count r = length (BookingListResponse.bookings r) /\
    BookingListResponse.total_count r <= BookingListResponse.total_count r0 /\
    BookingListResponse.total_count r0 = length (bookings (bot w)).
Proof.
  rewrite !list_bookings_run. eexists _, _.
  split; [reflexivity|]. split; [reflexivity|].
  cbn [BookingListResponse.bookings BookingListResponse.total_count].
  rewrite filter_without_filters.
  pose proof (filtered_is_sublist status date (bookings (bot w))) as Hsub.
  split; [exact Hsub|]. split; [reflexivity|].
  split; [apply sublist_length, Hsub|].
  apply length_map.
Qed.

End Filters.

(** ** Reading the text of a search *)

Section SearchText.
Import PyStr.

Lemma for_each_raises {A S : Type} (f : S -> A -> outcome S) (lines : list A)
    (s : S) (e : string) :
  for_each f lines s = Raised e ->
  exists (x : A) (s0 : S), In x lines /\ f s0 x = Raised e.
Proof.
  revert s. induction lines as [|x lines IH]; intros s; cbn [for_each]; [discriminate|].
  destruct (f s x) as [s'|e'] eqn:Hf.
  - intros Hr. destruct (IH _ Hr) as (y & s0 & Hy & Hf0).
    exists y, s0. split; [right; exact Hy | exact Hf0].
  - intros [= <-]. exists x, s. split; [left; reflexivity | exact Hf].
Qed.

Lemma for_each_fails {A S : Type} (f : S -> A -> outcome S) (lines : list A)
    (s : S) (x : A) :
  In x lines -> (forall s0 : S, exists e : string, f s0 x = Raised e) ->
  exists e : string, for_each f lines s = Raised e.
Proof.
  revert s. induction lines as [|y lines IH]; intros s; [intros []|].
  intros [->|Hin] Hx; cbn [for_each].
  - destruct (Hx s) as [e He]. rewrite He. eauto.
  - destruct (f s y) as [s'|e']; [apply IH; assumption | eauto].
Qed.

Lemma for_each_keeps {A S : Type} (f : S -> A -> outcome S) (lines : list A) (s : S) :
  (forall x : A, In x lines -> forall s0 : S, f s0 x = Returned s0) ->
  for_each f lines s = Returned s.
Proof.
  induction lines as [|x lines IH]; intros Hx; cbn [for_each]; [reflexivity|].
  rewrite (Hx x (or_introl eq_refl)). apply IH.
  intros y Hy. apply Hx. right. exact Hy.
Qed.

Lemma search_line_sound (l : ledger) (acc found : list BookingDetails.t) (line : string) :
  search_line l acc line = Returned found ->
  found = acc \/
  exists (i : string) (d : details),
    ledger_get i l = Some d /\ found = acc ++ [booking_details i d].
Proof.
  unfold search_line.
  destruct (negb (strip line =s? "") && contains ":" line); [|intros [= <-]; auto].
  destruct (index (split_on ":" line) 0) as [head|e]; cbn [obind]; [|discriminate].
  destruct (index_last (split_ws head)) as [i|e]; cbn [obind]; [|discriminate].
  destruct (ledger_get i l) as [d|] eqn:Hg; intros [= <-]; [|auto].
  right. exists i, d. auto.
Qed.

Lemma search_line_raises (l : ledger) (acc : list BookingDetails.t) (line e : string) :
  search_line l acc line = Raised e -> e = PyExn.IndexError.
Proof.
  unfold search_line.
  destruct (negb (strip line =s? "") && contains ":" line); [|discriminate].
  unfold index, index_last.
  destruct (split_on ":" line !! 0) as [head|]; cbn [obind]; [|intros [= <-]; reflexivity].
  destruct (last (split_ws head)) as [i|]; cbn [obind]; [|intros [= <-]; reflexivity].
  destruct (ledger_get i l); discriminate.
Qed.

Lemma search_loop_sound (l : ledger) (lines : list string)
    (acc found : list BookingDetails.t) :
  for_each (search_line l) lines acc = Returned found ->
  exists more : list BookingDetails.t,
    found = acc ++ more /\ length more <= length lines /\
    forall b : BookingDetails.t,
      In b more ->
      exists d : details,
        ledger_get (BookingDetails.booking_id b) l = Some d /\
        b = booking_details (BookingDetails.booking_id b) d.
Proof.
  revert acc. induction lines as [|line lines IH]; intros acc; cbn [for_each].
  - intros [= <-]. exists []. rewrite app_nil_r. split; [reflexivity|].
    split; [reflexivity | intros b []].
  - destruct (search_line l acc line) as [acc'|e] eqn:Hl; [|discriminate].
    intros Hr. destruct (IH _ Hr) as (more & -> & Hlen & Hmore).
    destruct (search_line_sound _ _ _ _ Hl) as [-> | (i & d & Hg & ->)].
    + exists more. split; [reflexivity|]. split; [cbn; lia | exact Hmore].
    + exists (booking_details i d :: more). rewrite <- app_assoc.
      split; [reflexivity|]. split; [cbn; lia|].
      intros b [<- | Hb]; [|exact (Hmore b Hb)].
      exists d. auto.
Qed.

Lemma found_bookings_sound (result : string) (l : ledger) (found : list BookingDetails.t) :
  found_bookings result l = Returned found ->
  length found <= length (tail (split_on newline result)) /\
  forall b : BookingDetails.t,
    In b found ->
    exists d : details,
      ledger_get (BookingDetails.booking_id b) l = Some d /\
      b = booking_details (BookingDetails.booking_id b) d.
Proof.
  unfold found_bookings. destruct (contains "Search Results" result).
  - intros Hr. destruct (search_loop_sound _ _ _ _ Hr) as (more & -> & Hlen & Hmore).
    cbn [app]. auto.
  - intros [= <-]. split; [cbn; lia | intros b []].
Qed.

End SearchText.

Section SearchRuns.
Context {env : Type} `{Bot env}.

(** X13: whatever the manager's text says, every booking in a response of
    [search_bookings] is an entry of the ledger as the manager left it,
    with the data stored there; the count is the number of bookings
    returned. *)
Theorem search_returns_ledger_entries
    (query : string) (w w' : world env) (r : BookingListResponse.t) :
  search_bookings query w = (Returned r, w') ->
  BookingListResponse.total_count r = length (BookingListResponse.bookings r) /\
  forall b : BookingDetails.t,
    In b (BookingListResponse.bookings r) ->
    exists d : details,
      ledger_get (BookingDetails.booking_id b) (bookings (bot w')) = Some d /\
      b = booking_details (BookingDetails.booking_id b) d.
Proof.
  unfold search_bookings. run.
  destruct (manager_search_bookings query (bot w)) as [[result|e] b1]; cbn [bot sessions].
  - destruct (found_bookings result (bookings b1)) as [found|e] eqn:Hf.
    + intros [= <- <-]. cbn [BookingListResponse.bookings BookingListResponse.total_count bot].
      split; [reflexivity|]. apply (found_bookings_sound _ _ _ Hf).
    + cbn [bot sessions].
      destruct (track_error e (SearchBookingsContext query) b1) as [[[]|e'] b2];
        cbn [bot sessions]; [|discriminate].
      intros [= <- <-]. split; [reflexivity | intros b []].
  - destruct (track_error e (SearchBookingsContext query) b1) as [[[]|e'] b2];
      cbn [bot sessions]; [|discriminate].
    intros [= <- <-]. split; [reflexivity | intros b []].
Qed.

End SearchRuns.

(** ** Blank text *)

Section Blank.
Import PyStr.

Lemma blank_split_ws (s : string) :
  none_of (fun c => negb (isspace c)) s = true -> split_ws s = [].
Proof.
  induction s as [|c t IH]; cbn [none_of split_ws]; [reflexivity|].
  intros Hs. apply andb_true_iff in Hs as [Hc Ht].
  rewrite negb_involutive in Hc. rewrite Hc. exact (IH Ht).
Qed.

Lemma rstrip_empty (s : string) :
  rstrip s = "" -> none_of (fun c => negb (isspace c)) s = true.
Proof.
  induction s as [|c t IH]; cbn [rstrip none_of]; [reflexivity|].
  destruct (rstrip t) as [|c' r]; [|discriminate].
  destruct (isspace c); [|discriminate].
  intros _. rewrite IH by reflexivity. reflexivity.
Qed.

Lemma lstrip_blank (s : string) :
  none_of (fun c => negb (isspace c)) (lstrip s) = true ->
  none_of (fun c => negb (isspace c)) s = true.
Proof.
  induction s as [|c t IH]; cbn [lstrip]; [reflexivity|].
  destruct (isspace c) eqn:Hc; [|auto].
  intros Ht. cbn [none_of]. rewrite Hc, IH by exact Ht. reflexivity.
Qed.

Lemma strip_empty (s : string) :
  strip s = "" -> none_of (fun c => negb (isspace c)) s = true.
Proof. unfold strip. intros Hs. apply lstrip_blank, rstrip_empty, Hs. Qed.

Lemma blank_has_no_colon (s : string) :
  none_of (fun c => negb (isspace c)) s = true ->
  none_of (fun c => Stdlib.Strings.Ascii.eqb c ":") s = true.
Proof.
  induction s as [|c t IH]; cbn [none_of]; [reflexivity|].
  intros Hs. apply andb_true_iff in Hs as [Hc Ht].
  rewrite IH by exact Ht. rewrite negb_involutive in Hc.
  destruct (Stdlib.Strings.Ascii.eqb_spec c ":") as [->|]; [discriminate Hc | reflexivity].
Qed.

Lemma occurs_in_trans (a b c : string) : occurs_in a b -> occurs_in b c -> occurs_in a c.
Proof.
  intros (p & q & ->) (p' & q' & ->).
  exists (p' ++ p)%string, (q ++ q')%string.
  rewrite !append_assoc. reflexivity.
Qed.

Lemma search_line_blank_head (l : ledger) (acc : list BookingDetails.t)
    (head rest : string) :
  none_of (fun c => negb (isspace c)) head = true ->
  search_line l acc (head ++ String ":" rest) = Raised PyExn.IndexError.
Proof.
  intros Hb. unfold search_line.
  assert (Hc : contains ":" (head ++ String ":" rest) = true).
  { apply contains_spec. exists head, rest. reflexivity. }
  assert (Hs : (strip (head ++ String ":" rest) =s? "") = false).
  { apply Stdlib.Strings.String.eqb_neq. intros He. apply strip_empty in He.
    rewrite none_of_app in He. apply andb_true_iff in He as [_ He]. discriminate He. }
  rewrite Hc, Hs. cbn [negb andb].
  rewrite split_on_line by (apply blank_has_no_colon, Hb).
  cbn [index lookup list_lookup obind]. unfold index_last.
  rewrite blank_split_ws by exact Hb. reflexivity.
Qed.

End Blank.

Section SearchEdges.
Context {env : Type} `{Bot env}.
Import PyStr.

(** X14: a line of the manager's text, after the first, that has only
    blanks before its first colon makes [search_bookings] fail as a whole:
    the response is marked as failed with "list index out of range" and
    returns no booking, whatever the other lines found. *)
Theorem search_fails_on_a_blank_label
    (query result head rest : string) (w : world env) (b1 b2 : env) :
  manager_search_bookings query (bot w) = (Returned result, b1) ->
  occurs_in "Search Results" result ->
  In (head ++ String ":" rest)%string (tail (split_on newline result)) ->
  none_of (fun c => negb (isspace c)) head = true ->
  track_error PyExn.IndexError (SearchBookingsContext query) b1 = (Returned tt, b2) ->
  search_bookings query w =
  (Returned {| BookingListResponse.bookings := [];
               BookingListResponse.total_count := 0;
               BookingListResponse.success := Some false;
               BookingListResponse.error := Some "list index out of range" |},
   World b2 (sessions w)).
Proof.
  intros Hm Hh Hin Hb He.
  assert (Hf : found_bookings result (bookings b1) = Raised PyExn.IndexError).
  { unfold found_bookings. apply contains_spec in Hh. rewrite Hh.
    destruct (for_each_fails (search_line (bookings b1)) _ [] _ Hin) as [e Hr].
    - intros s0. exists PyExn.IndexError. apply search_line_blank_head, Hb.
    - rewrite Hr. f_equal.
      destruct (for_each_raises _ _ _ _ Hr) as (x & s0 & _ & Hx).
      exact (search_line_raises _ _ _ _ Hx). }
  unfold search_bookings. run. rewrite Hm. cbn [bot sessions].
  rewrite Hf. cbn [bot sessions]. rewrite He. reflexivity.
Qed.

(** X15: [search_bookings] only reads the lines after the first that have
    a colon: when none of them has one, and so too when the text is a
    single line, the response holds no booking, whatever the ledger
    holds. *)
Theorem search_ignores_lines_without_colon
    (query result : string) (w : world env) (b1 : env) :
  manager_search_bookings query (bot w) = (Returned result, b1) ->
  (forall line : string,
     In line (tail (split_on newline result)) -> ~ occurs_in ":" line) ->
  search_bookings query w =
  (Returned {| BookingListResponse.bookings := [];
               BookingListResponse.total_count := 0;
               BookingListResponse.success := None;
               BookingListResponse.error := None |},
   World b1 (sessions w)).
Proof.
  intros Hm Hlines.
  assert (Hf : found_bookings result (bookings b1) = Returned []).
  { unfold found_bookings. destruct (contains "Search Results" result); [|reflexivity].
    apply for_each_keeps. intros line Hin acc. unfold search_line.
    destruct (contains ":" line) eqn:Hc.
    - exfalso. apply (Hlines line Hin). apply contains_spec, Hc.
    - rewrite andb_false_r. reflexivity. }
  unfold search_bookings. run. rewrite Hm. cbn [bot sessions].
  rewrite Hf. reflexivity.
Qed.

End SearchEdges.

Lemma list_status_ignores_case_witness :
  list_bookings (Some "CONFIRMED") None
    (Scripted.answering [("BK0001", {[ "status" := "confirmed" ]})] "") =
  list_bookings (Some "Confirmed") None
    (Scripted.answering [("BK0001", {[ "status" := "confirmed" ]})] "").
Proof.
  exact (list_status_ignores_case "CONFIRMED" "Confirmed" None
           (Scripted.answering [("BK0001", {[ "status" := "confirmed" ]})] "")
           eq_refl).
Defined.

Lemma search_returns_ledger_entries_witness :
  1 = length [booking_details "BK0001" {[ "name" := "Alice" ]}] /\
  forall b : BookingDetails.t,
    In b [booking_details "BK0001" {[ "name" := "Alice" ]}] ->
    exists d : details,
      ledger_get (BookingDetails.booking_id b) [("BK0001", {[ "name" := "Alice" ]})] = Some d /\
      b = booking_details (BookingDetails.booking_id b) d.
Proof.
  exact (search_returns_ledger_entries "alice"
           (Scripted.answering [("BK0001", {[ "name" := "Alice" ]})]
              ("Search Results for alice:" ++ String newline "1. BK0001: Alice"))
           (Scripted.answering [("BK0001", {[ "name" := "Alice" ]})]
              ("Search Results for alice:" ++ String newline "1. BK0001: Alice"))
           {| BookingListResponse.bookings :=
                [booking_details "BK0001" {[ "name" := "Alice" ]}];
              BookingListResponse.total_count := 1;
              BookingListResponse.success := None;
              BookingListResponse.error := None |}
           eq_refl).
Defined.

Lemma search_fails_on_a_blank_label_witness :
  search_bookings "alice"
    (Scripted.answering [("BK0001", {[ "name" := "Alice" ]})]
       ("Search Results for alice:" ++ String newline
          ("1. BK0001: Alice" ++ String newline " : none"))) =
  (Returned {| BookingListResponse.bookings := [];
               BookingListResponse.total_count := 0;
               BookingListResponse.success := Some false;
               BookingListResponse.error := Some "list index out of range" |},
   Scripted.answering [("BK0001", {[ "name" := "Alice" ]})]
     ("Search Results for alice:" ++ String newline
        ("1. BK0001: Alice" ++ String newline " : none"))).
Proof.
  refine (search_fails_on_a_blank_label "alice"
            ("Search Results for alice:" ++ String newline
               ("1. BK0001: Alice" ++ String newline " : none"))
            " " " none"
            (Scripted.answering [("BK0001", {[ "name" := "Alice" ]})]
               ("Search Results for alice:" ++ String newline
                  ("1. BK0001: Alice" ++ String newline " : none")))
            _ _ eq_refl _ _ eq_refl eq_refl).
  - exists "", (" for alice:" ++ String newline
                  ("1. BK0001: Alice" ++ String newline " : none"))%string.
    reflexivity.
  - cbn. right. left. reflexivity.
Defined.

Lemma search_ignores_lines_without_colon_witness :
  search_bookings "alice"
    (Scripted.answering [("BK0001", {[ "name" := "Alice" ]})]
       "Search Results: BK0001: Alice") =
  (Returned {| BookingListResponse.bookings := [];
               BookingListResponse.total_count := 0;
               BookingListResponse.success := None;
               BookingListResponse.error := None |},
   Scripted.answering [("BK0001", {[ "name" := "Alice" ]})]
     "Search Results: BK0001: Alice").
Proof.
  refine (search_ignores_lines_without_colon "alice" "Search Results: BK0001: Alice"
            (Scripted.answering [("BK0001", {[ "name" := "Alice" ]})]
               "Search Results: BK0001: Alice")
            _ eq_refl _).
  intros line Hin. cbn in Hin. destruct Hin.
Defined.

(** ** Reading the text of the statistics *)

Section StatsText.
Import PyStr.

Lemma colon_in_label (label line : string) :
  occurs_in ":" label -> contains ":" line = false -> contains label line = false.
Proof.
  intros Hl Hc. destruct (contains label line) eqn:Hx; [|reflexivity].
  apply contains_spec in Hx.
  assert (Hy : contains ":" line = true)
    by (apply contains_spec; exact (occurs_in_trans _ _ _ Hl Hx)).
  congruence.
Qed.

Lemma stats_line_guests_without_colon (stats : stats_dict) (line : string) :
  contains "Total Guests" line = true -> contains ":" line = false ->
  stats_line stats line = Raised PyExn.IndexError.
Proof.
  intros Hg Hc. unfold stats_line.
  rewrite (colon_in_label "Total Bookings:") by (auto; exists "Total Bookings", ""; reflexivity).
  rewrite (colon_in_label "Confirmed:") by (auto; exists "Confirmed", ""; reflexivity).
  rewrite (colon_in_label "Cancelled:") by (auto; exists "Cancelled", ""; reflexivity).
  rewrite Hg. unfold int_after_colon, after_colon.
  assert (Hs : split_on ":" line = [line]).
  { apply split_on_last. clear Hg. induction line as [|c t IH]; cbn [none_of]; [reflexivity|].
    rewrite (contains_eq ":" (String c t)) in Hc. apply orb_false_iff in Hc as [Hc1 Hc2].
    rewrite IH by exact Hc2. cbn [startswith] in Hc1. rewrite andb_true_r in Hc1.
    rewrite Stdlib.Strings.Ascii.eqb_sym, Hc1. reflexivity. }
  rewrite Hs. reflexivity.
Qed.

Lemma stats_line_unlabelled (stats : stats_dict) (line : string) :
  contains "Total Bookings:" line = false ->
  contains "Confirmed:" line = false ->
  contains "Cancelled:" line = false ->
  contains "Total Guests" line = false ->
  contains "Today's Bookings:" line = false ->
  contains "Success Rate:" line = false ->
  stats_line stats line = Returned stats.
Proof. intros H1 H2 H3 H4 H5 H6. unfold stats_line. rewrite H1, H2, H3, H4, H5, H6. reflexivity. Qed.

End StatsText.

Section StatsRuns.
Context {env : Type} `{Bot env}.
Import PyStr.

(** X16: a response of [get_stats] is either wholly read or wholly
    failed: when it is marked as failed it carries the text of an error
    and all six values are zero, so no number read before the failure is
    ever returned; when it is not marked, it carries no error. *)
Theorem failed_stats_carry_no_numbers (w w' : world env) (r : StatsResponse.t) :
  get_stats w = (Returned r, w') ->
  (StatsResponse.success r = None /\ StatsResponse.error r = None) \/
  (StatsResponse.success r = Some false /\
   is_Some (StatsResponse.error r) /\
   StatsResponse.total_bookings r = 0%Z /\
   StatsResponse.confirmed_bookings r = 0%Z /\
   StatsResponse.cancelled_bookings r = 0%Z /\
   StatsResponse.total_guests r = 0%Z /\
   StatsResponse.today_bookings r = 0%Z /\
   StatsResponse.success_rate r = PyNum.float_zero).
Proof.
  unfold get_stats. run.
  destruct (manager_get_booking_stats (bot w)) as [[result|e] b1]; cbn [bot sessions].
  - destruct (parsed_stats result) as [st|e]; cbn [bot sessions].
    + intros [= <- <-]. left. split; reflexivity.
    + destruct (track_error e GetStatsContext b1) as [[[]|e'] b2];
        cbn [bot sessions]; [|discriminate].
      intros [= <- <-]. right. cbn. repeat split; eauto.
  - destruct (track_error e GetStatsContext b1) as [[[]|e'] b2];
      cbn [bot sessions]; [|discriminate].
    intros [= <- <-]. right. cbn. repeat split; eauto.
Qed.

(** X17: [get_stats] reads only the lines after the first that carry one
    of its six labels: when none of them does, and so too when the text
    is a single line, every value of the response is zero and the response
    is not marked as failed. *)
Theorem stats_ignore_unlabelled_lines (result : string) (w : world env) (b1 : env) :
  manager_get_booking_stats (bot w) = (Returned result, b1) ->
  (forall line : string,
     In line (tail (split_on newline result)) ->
     ~ occurs_in "Total Bookings:" line /\ ~ occurs_in "Confirmed:" line /\
     ~ occurs_in "Cancelled:" line /\ ~ occurs_in "Total Guests" line /\
     ~ occurs_in "Today's Bookings:" line /\ ~ occurs_in "Success Rate:" line) ->
  get_stats w = (Returned (stats_response stats_zero), World b1 (sessions w)).
Proof.
  intros Hm Hlines. apply (get_stats_returned result); [exact Hm|].
  unfold parsed_stats. destruct (contains "Booking Statistics" result); [|reflexivity].
  apply for_each_keeps. intros line Hin st.
  destruct (Hlines line Hin) as (H1 & H2 & H3 & H4 & H5 & H6).
  apply stats_line_unlabelled;
    (match goal with |- contains ?n ?l = false =>
       destruct (contains n l) eqn:Hc; [|reflexivity];
       apply contains_spec in Hc; contradiction
     end).
Qed.

(** X18: the label "Total Guests" is looked for without its colon: a line
    after the first that carries it and has no colon makes [get_stats]
    fail as a whole, with every value zero. *)
Theorem stats_fail_on_guests_without_colon
    (result line : string) (w : world env) (b1 : env) :
  manager_get_booking_stats (bot w) = (Returned result, b1) ->
  occurs_in "Booking Statistics" result ->
  In line (tail (split_on newline result)) ->
  occurs_in "Total Guests" line -> ~ occurs_in ":" line ->
  (forall e : string, exists b2 : env,
     track_error e GetStatsContext b1 = (Returned tt, b2)) ->
  exists (e : string) (b2 : env),
    get_stats w =
    (Returned {| StatsResponse.total_bookings := 0;
                 StatsResponse.confirmed_bookings := 0;
                 StatsResponse.cancelled_bookings := 0;
                 StatsResponse.total_guests := 0;
                 StatsResponse.today_bookings := 0;
                 StatsResponse.success_rate := PyNum.float_zero;
                 StatsResponse.success := Some false;
                 StatsResponse.error := Some e |},
     World b2 (sessions w)).
Proof.
  intros Hm Hh Hin Hg Hc Ht.
  assert (Hf : exists e : string, parsed_stats result = Raised e).
  { unfold parsed_stats. apply contains_spec in Hh. rewrite Hh.
    apply (for_each_fails stats_line _ stats_zero _ Hin).
    intros st. exists PyExn.IndexError. apply stats_line_guests_without_colon.
    - apply contains_spec, Hg.
    - destruct (contains ":" line) eqn:Hx; [|reflexivity].
      apply contains_spec in Hx. contradiction. }
  destruct Hf as [e Hf]. destruct (Ht e) as [b2 Hb2]. exists e, b2.
  unfold get_stats. run. rewrite Hm. cbn [bot sessions].
  rewrite Hf. cbn [bot sessions]. rewrite Hb2. reflexivity.
Qed.

End StatsRuns.

Lemma failed_stats_carry_no_numbers_witness :
  (Some false = None /\ Some "invalid literal for int() with base 10: 'n/a'" = None) \/
  (Some false = Some false /\
   is_Some (Some "invalid literal for int() with base 10: 'n/a'") /\
   0%Z = 0%Z /\ 0%Z = 0%Z /\ 0%Z = 0%Z /\ 0%Z = 0%Z /\ 0%Z = 0%Z /\
   PyNum.float_zero = PyNum.float_zero).
Proof.
  exact (failed_stats_carry_no_numbers
           (Scripted.answering []
              ("Booking Statistics" ++ String newline
                 ("Confirmed: 3" ++ String newline "Total Bookings: n/a")))
           (Scripted.answering []
              ("Booking Statistics" ++ String newline
                 ("Confirmed: 3" ++ String newline "Total Bookings: n/a")))
           {| StatsResponse.total_bookings := 0;
              StatsResponse.confirmed_bookings := 0;
              StatsResponse.cancelled_bookings := 0;
              StatsResponse.total_guests := 0;
              StatsResponse.today_bookings := 0;
              StatsResponse.success_rate := PyNum.float_zero;
              StatsResponse.success := Some false;
              StatsResponse.error := Some "invalid literal for int() with base 10: 'n/a'" |}
           eq_refl).
Defined.

Lemma stats_ignore_unlabelled_lines_witness :
  get_stats (Scripted.answering [] "Booking Statistics - Total Bookings: 5") =
  (Returned (stats_response stats_zero),
   Scripted.answering [] "Booking Statistics - Total Bookings: 5").
Proof.
  refine (stats_ignore_unlabelled_lines "Booking Statistics - Total Bookings: 5"
            (Scripted.answering [] "Booking Statistics - Total Bookings: 5")
            _ eq_refl _).
  intros line Hin. cbn in Hin. destruct Hin.
Defined.

Lemma stats_fail_on_guests_without_colon_witness :
  exists (e : string) (b2 : Scripted.t),
    get_stats
      (Scripted.answering [] ("Booking Statistics" ++ String newline "Total Guests 12")) =
    (Returned {| StatsResponse.total_bookings := 0;
                 StatsResponse.confirmed_bookings := 0;
                 StatsResponse.cancelled_bookings := 0;
                 StatsResponse.total_guests := 0;
                 StatsResponse.today_bookings := 0;
                 StatsResponse.success_rate := PyNum.float_zero;
                 StatsResponse.success := Some false;
                 StatsResponse.error := Some e |},
     World b2
       (sessions
          (Scripted.answering []
             ("Booking Statistics" ++ String newline "Total Guests 12")))).
Proof.
  refine (stats_fail_on_guests_without_colon
            ("Booking Statistics" ++ String newline "Total Guests 12") "Total Guests 12"
            (Scripted.answering [] ("Booking Statistics" ++ String newline "Total Guests 12"))
            _ eq_refl _ _ _ _ _).
  - exists "", (String newline "Total Guests 12"). reflexivity.
  - cbn. left. reflexivity.
  - exists "", " 12". reflexivity.
  - intros Hc. apply contains_spec in Hc. discriminate Hc.
  - intros e. eexists. reflexivity.
Defined.

(** ** Text after a count *)

Section Trailing.
Import PyStr PyNum.

Lemma startswith_needs_colon (needle rest : string) :
  occurs_in ":" needle ->
  none_of (fun c => Stdlib.Strings.Ascii.eqb c ":") rest = true ->
  startswith needle rest = false.
Proof.
  intros (p & q & ->) Hr.
  destruct (startswith (p ++ ":" ++ q) rest) eqn:Hs; [|reflexivity].
  apply startswith_spec in Hs as [post ->].
  rewrite !none_of_app in Hr. cbn [none_of] in Hr.
  rewrite Stdlib.Strings.Ascii.eqb_refl in Hr. cbn in Hr.
  rewrite andb_false_r in Hr. discriminate Hr.
Qed.

Lemma contains_needs_colon (needle rest : string) :
  occurs_in ":" needle ->
  none_of (fun c => Stdlib.Strings.Ascii.eqb c ":") rest = true ->
  contains needle rest = false.
Proof.
  intros Hn. induction rest as [|c t IH]; intros Hr.
  - rewrite contains_eq, startswith_needs_colon by assumption. reflexivity.
  - rewrite contains_eq, startswith_needs_colon by assumption.
    cbn [none_of] in Hr. apply andb_true_iff in Hr as [_ Hr].
    rewrite IH by exact Hr. reflexivity.
Qed.

Lemma split_ws_first_word (word rest : string) :
  word <> "" -> none_of isspace word = true ->
  split_ws (word ++ String " " rest) = word :: split_ws (String " " rest).
Proof.
  induction word as [|c t IH]; intros Hne Hw; [congruence|].
  cbn [none_of] in Hw. apply andb_true_iff in Hw as [Hc Ht]. apply negb_true_iff in Hc.
  change (String c t ++ String " " rest)%string with (String c (t ++ String " " rest)).
  cbn [split_ws]. rewrite Hc. destruct t as [|c' t'].
  - reflexivity.
  - change (String c' t' ++ String " " rest)%string
      with (String c' (t' ++ String " " rest)).
    cbv iota.
    assert (Hc' : isspace c' = false).
    { cbn [none_of] in Ht. apply andb_true_iff in Ht as [Hx _]. apply negb_true_iff, Hx. }
    rewrite Hc'.
    change (String c' (t' ++ String " " rest))
      with (String c' t' ++ String " " rest)%string.
    rewrite IH by (auto; discriminate). reflexivity.
Qed.

Lemma first_int_with_trailing_text (label suffix : string) (n : N) :
  none_of (fun c => Stdlib.Strings.Ascii.eqb c ":") label = true ->
  none_of (fun c => Stdlib.Strings.Ascii.eqb c ":") suffix = true ->
  first_int_after_colon
    (label ++ String ":" (String " " (str_N n ++ String " " suffix))) =
  Returned (Z.of_N n).
Proof.
  intros Hl Hs. destruct (str_N_spec n) as (Hne & Hd & Hv).
  unfold first_int_after_colon. rewrite after_colon_label; [|exact Hl|].
  - cbn [obind split_ws]. change (isspace " ") with true. cbv iota.
    rewrite split_ws_first_word by (auto using digits_spaceless).
    cbn [index lookup list_lookup obind]. rewrite py_int_digits, Hv by assumption.
    reflexivity.
  - cbn [none_of]. rewrite none_of_app, digits_without by auto.
    cbn [none_of]. rewrite Hs. reflexivity.
Qed.

Lemma startswith_colon_end (n0 text rest : string) :
  none_of (fun c => Stdlib.Strings.Ascii.eqb c ":") rest = true ->
  startswith (n0 ++ ":") (text ++ rest) = startswith (n0 ++ ":") text.
Proof.
  intros Hr. revert text. induction n0 as [|a n0 IH]; intros [|b text].
  - change (EmptyString ++ rest)%string with rest.
    rewrite startswith_needs_colon by (auto; exists "", ""; reflexivity). reflexivity.
  - reflexivity.
  - change (EmptyString ++ rest)%string with rest.
    rewrite startswith_needs_colon;
      [reflexivity | exists (String a n0), ""; reflexivity | exact Hr].
  - change (String a n0 ++ ":")%string with (String a (n0 ++ ":")).
    change (String b text ++ rest)%string with (String b (text ++ rest)).
    cbn [startswith]. rewrite IH. reflexivity.
Qed.

Lemma contains_colon_end (n0 text rest : string) :
  none_of (fun c => Stdlib.Strings.Ascii.eqb c ":") rest = true ->
  contains (n0 ++ ":") (text ++ rest) = contains (n0 ++ ":") text.
Proof.
  intros Hr. induction text as [|b text IH].
  - change (EmptyString ++ rest)%string with rest.
    rewrite contains_needs_colon by (auto; exists n0, ""; reflexivity).
    destruct n0; reflexivity.
  - rewrite (contains_eq (n0 ++ ":") (String b text ++ rest)).
    rewrite startswith_colon_end by exact Hr.
    change (String b text ++ rest)%string with (String b (text ++ rest)).
    cbv iota. rewrite IH.
    rewrite (contains_eq (n0 ++ ":") (String b text)). reflexivity.
Qed.

(** X19: on a "Confirmed:" or "Cancelled:" line only the first word after
    the colon is read: a count followed by a blank and any text without a
    colon sets the count, whatever that text is. *)
Theorem counts_may_be_followed_by_text (stats : stats_dict) (n : N) (suffix : string) :
  none_of (fun c => Stdlib.Strings.Ascii.eqb c ":") suffix = true ->
  stats_line stats ("Confirmed: " ++ str_N n ++ String " " suffix) =
    Returned {| total_bookings := total_bookings stats;
                confirmed_bookings := Z.of_N n;
                cancelled_bookings := cancelled_bookings stats;
                total_guests := total_guests stats;
                today_bookings := today_bookings stats;
                success_rate := success_rate stats |} /\
  stats_line stats ("Cancelled: " ++ str_N n ++ String " " suffix) =
    Returned {| total_bookings := total_bookings stats;
                confirmed_bookings := confirmed_bookings stats;
                cancelled_bookings := Z.of_N n;
                total_guests := total_guests stats;
                today_bookings := today_bookings stats;
                success_rate := success_rate stats |}.
Proof.
  intros Hs. destruct (str_N_spec n) as (Hne & Hd & Hv).
  assert (Htail : none_of (fun c => Stdlib.Strings.Ascii.eqb c ":")
                    (str_N n ++ String " " suffix) = true).
  { rewrite none_of_app, digits_without by auto. cbn [none_of]. rewrite Hs. reflexivity. }
  split.
  - unfold stats_line.
    rewrite (contains_colon_end "Total Bookings" "Confirmed: ") by exact Htail.
    change (contains ("Total Bookings" ++ ":") "Confirmed: ") with false. cbv iota.
    rewrite (contains_colon_end "Confirmed" "Confirmed: ") by exact Htail.
    change (contains ("Confirmed" ++ ":") "Confirmed: ") with true. cbv iota.
    change ("Confirmed: " ++ str_N n ++ String " " suffix)%string
      with ("Confirmed" ++ String ":" (String " " (str_N n ++ String " " suffix)))%string.
    rewrite first_int_with_trailing_text by (auto). reflexivity.
  - unfold stats_line.
    rewrite (contains_colon_end "Total Bookings" "Cancelled: ") by exact Htail.
    change (contains ("Total Bookings" ++ ":") "Cancelled: ") with false. cbv iota.
    rewrite (contains_colon_end "Confirmed" "Cancelled: ") by exact Htail.
    change (contains ("Confirmed" ++ ":") "Cancelled: ") with false. cbv iota.
    rewrite (contains_colon_end "Cancelled" "Cancelled: ") by exact Htail.
    change (contains ("Cancelled" ++ ":") "Cancelled: ") with true. cbv iota.
    change ("Cancelled: " ++ str_N n ++ String " " suffix)%string
      with ("Cancelled" ++ String ":" (String " " (str_N n ++ String " " suffix)))%string.
    rewrite first_int_with_trailing_text by (auto). reflexivity.
Qed.

End Trailing.

Lemma counts_may_be_followed_by_text_witness :
  stats_line stats_zero ("Confirmed: " ++ PyNum.str_N 3 ++ String " " "(of 5 bookings)") =
    Returned {| total_bookings := 0; confirmed_bookings := Z.of_N 3;
                cancelled_bookings := 0; total_guests := 0; today_bookings := 0;
                success_rate := PyNum.float_zero |} /\
  stats_line stats_zero ("Cancelled: " ++ PyNum.str_N 3 ++ String " " "(of 5 bookings)") =
    Returned {| total_bookings := 0; confirmed_bookings := 0;
                cancelled_bookings := Z.of_N 3; total_guests := 0; today_bookings := 0;
                success_rate := PyNum.float_zero |}.
Proof.
  exact (counts_may_be_followed_by_text stats_zero 3 "(of 5 bookings)" eq_refl).
Defined.

(** ** The life cycle of the bot *)

Section LifecycleFacts.
Import Lifecycle.
Context {outside : Type} `{Services outside}.

Lemma get_bot_cases (p p' : process) (a : answer instance) :
  get_bot p = (a, p') ->
  (exists b : instance, a = Ok b /\ bot_instance p' = Some b) \/
  (exists e : string,
     a = HTTPException 500 ("Failed to initialize bot: " ++ e)%string /\
     bot_instance p = None /\ bot_instance p' = None).
Proof.
  unfold get_bot. destruct (bot_instance p) as [b|] eqn:Hb.
  - intros [= <- <-]. left. exists b. auto.
  - destruct (build (outside_state p)) as [[b|e] o].
    + intros [= <- <-]. left. exists b. auto.
    + intros [= <- <-]. right. exists e. auto.
Qed.

(** X1: once [get_bot] has returned an instance, every later call returns
    that same instance and changes nothing: the constructors run at most
    once. *)
Theorem get_bot_builds_once (p p' : process) (b : instance) :
  get_bot p = (Ok b, p') ->
  bot_instance p' = Some b /\ get_bot p' = (Ok b, p').
Proof.
  intros Hg. destruct (get_bot_cases _ _ _ Hg) as [(b0 & [= <-] & Hi) | (e & Hx & _)].
  - split; [exact Hi|]. unfold get_bot. rewrite Hi. reflexivity.
  - discriminate Hx.
Qed.

(** X2: when [get_bot] fails, the fault is an [HTTPException] with status
    500 whose detail starts with "Failed to initialize bot: "; nothing was
    stored before and nothing is stored after, so the next call builds
    again. *)
Theorem get_bot_failure_stores_nothing (p p' : process) (status_code : Z) (detail : string) :
  get_bot p = (HTTPException status_code detail, p') ->
  status_code = 500%Z /\
  (exists e : string, detail = ("Failed to initialize bot: " ++ e)%string) /\
  bot_instance p = None /\ bot_instance p' = None /\
  get_bot p' =
  match build (outside_state p') with
  | (Returned b, o) => (Ok b, {| bot_instance := Some b; outside_state := o |})
  | (Raised e, o) =>
      (HTTPException 500 ("Failed to initialize bot: " ++ e),
       {| bot_instance := None; outside_state := o |})
  end.
Proof.
  intros Hg. destruct (get_bot_cases _ _ _ Hg) as [(b0 & Hx & _) | (e & [= -> ->] & Hp & Hp')].
  - discriminate Hx.
  - split; [reflexivity|]. split; [exists e; reflexivity|].
    split; [exact Hp|]. split; [exact Hp'|].
    unfold get_bot. rewrite Hp'. reflexivity.
Qed.

(** X3: [health_check] reports "healthy" with the bot "initialized" only
    when an instance is stored afterwards, and otherwise "unhealthy" with
    the bot in "error" and the text of the error; it reports the latter
    also for an instance that exists but cannot be inspected. *)
Theorem health_check_reports (p p' : process) (r : HealthResponse.t) :
  health_check p = (r, p') ->
  (HealthResponse.status r = "healthy" /\
   HealthResponse.services r !! "bot" = Some "initialized" /\
   HealthResponse.services r !! "error" = None /\
   is_Some (bot_instance p')) \/
  (HealthResponse.status r = "unhealthy" /\
   HealthResponse.services r !! "bot" = Some "error" /\
   is_Some (HealthResponse.services r !! "error") /\
   HealthResponse.services r !! "openai" = None).
Proof.
  unfold health_check.
  destruct (get_bot p) as [[b|c d] p1] eqn:Hg.
  - destruct (get_bot_cases _ _ _ Hg) as [(b0 & [= <-] & Hi) | (e & Hx & _)];
      [|discriminate Hx].
    destruct (api_key_set (the_ai_service b) (outside_state p1)) as [[k|e] o2].
    + destruct (monitoring_set (the_monitoring b) o2) as [[m|e] o3].
      * intros [= <- <-]. left. cbn. rewrite Hi. repeat split; eauto.
      * intros [= <- <-]. right. cbn. repeat split; eauto.
    + intros [= <- <-]. right. cbn. repeat split; eauto.
  - intros [= <- <-]. right. cbn. repeat split; eauto.
Qed.

(** X4: [root] builds nothing and changes nothing; it reports the bot as
    "initialized" exactly when an instance is stored, hence after every
    successful [get_bot] and never after a failed one. *)
Theorem root_reports_instance (p : process) :
  snd (root p) = p /\
  (HealthResponse.services (fst (root p)) !! "bot" = Some "initialized" <->
   is_Some (bot_instance p)) /\
  (forall (p0 : process) (b : instance),
     get_bot p0 = (Ok b, p) ->
     HealthResponse.services (fst (root p)) !! "bot" = Some "initialized") /\
  (forall (p0 : process) (status_code : Z) (detail : string),
     get_bot p0 = (HTTPException status_code detail, p) ->
     HealthResponse.services (fst (root p)) !! "bot" = Some "not_initialized").
Proof.
  split; [reflexivity|].
  assert (Hr : HealthResponse.services (fst (root p)) !! "bot" =
               Some match bot_instance p with
                    | Some _ => "initialized"
                    | None => "not_initialized"
                    end) by reflexivity.
  split; [|split].
  - rewrite Hr. destruct (bot_instance p).
    + split; eauto.
    + split; [discriminate | intros [x Hx]; discriminate Hx].
  - intros p0 b Hg. rewrite Hr.
    destruct (get_bot_cases _ _ _ Hg) as [(b0 & _ & ->) | (e & Hx & _)];
      [reflexivity | discriminate Hx].
  - intros p0 c d Hg. rewrite Hr.
    destruct (get_bot_cases _ _ _ Hg) as [(b0 & Hx & _) | (e & _ & _ & ->)];
      [discriminate Hx | reflexivity].
Qed.

End LifecycleFacts.

Lemma get_bot_builds_once_witness :
  Lifecycle.bot_instance
    (snd (Lifecycle.get_bot
            {| Lifecycle.bot_instance := None;
               Lifecycle.outside_state := Lifecycle.Scripted.working |})) =
  Some {| Lifecycle.the_config := tt; Lifecycle.the_monitoring := tt;
          Lifecycle.the_booking_manager := tt; Lifecycle.the_ai_service := tt |} /\
  Lifecycle.get_bot
    (snd (Lifecycle.get_bot
            {| Lifecycle.bot_instance := None;
               Lifecycle.outside_state := Lifecycle.Scripted.working |})) =
  (Lifecycle.Ok
     {| Lifecycle.the_config := tt; Lifecycle.the_monitoring := tt;
        Lifecycle.the_booking_manager := tt; Lifecycle.the_ai_service := tt |},
   snd (Lifecycle.get_bot
          {| Lifecycle.bot_instance := None;
             Lifecycle.outside_state := Lifecycle.Scripted.working |})).
Proof.
  exact (get_bot_builds_once
           {| Lifecycle.bot_instance := None;
              Lifecycle.outside_state := Lifecycle.Scripted.working |}
           (snd (Lifecycle.get_bot
                   {| Lifecycle.bot_instance := None;
                      Lifecycle.outside_state := Lifecycle.Scripted.working |}))
           {| Lifecycle.the_config := tt; Lifecycle.the_monitoring := tt;
              Lifecycle.the_booking_manager := tt; Lifecycle.the_ai_service := tt |}
           eq_refl).
Defined.

Lemma get_bot_failure_stores_nothing_witness :
  500%Z = 500%Z /\
  (exists e : string,
     ("Failed to initialize bot: no storage" : string) =
     ("Failed to initialize bot: " ++ e)%string) /\
  Lifecycle.bot_instance
    {| Lifecycle.bot_instance := None; Lifecycle.outside_state := Lifecycle.Scripted.broken |} = None /\
  Lifecycle.bot_instance
    {| Lifecycle.bot_instance := None; Lifecycle.outside_state := Lifecycle.Scripted.broken |} = None /\
  Lifecycle.get_bot
    {| Lifecycle.bot_instance := None; Lifecycle.outside_state := Lifecycle.Scripted.broken |} =
  match Lifecycle.build Lifecycle.Scripted.broken with
  | (Returned b, o) =>
      (Lifecycle.Ok b, {| Lifecycle.bot_instance := Some b; Lifecycle.outside_state := o |})
  | (Raised e, o) =>
      (Lifecycle.HTTPException 500 ("Failed to initialize bot: " ++ e),
       {| Lifecycle.bot_instance := None; Lifecycle.outside_state := o |})
  end.
Proof.
  exact (get_bot_failure_stores_nothing
           {| Lifecycle.bot_instance := None;
              Lifecycle.outside_state := Lifecycle.Scripted.broken |}
           {| Lifecycle.bot_instance := None;
              Lifecycle.outside_state := Lifecycle.Scripted.broken |}
           500 "Failed to initialize bot: no storage" eq_refl).
Defined.

Lemma health_check_reports_witness :
  (Lifecycle.HealthResponse.status (Lifecycle.unhealthy "Failed to initialize bot: no storage")
     = "healthy" /\
   Lifecycle.HealthResponse.services
     (Lifecycle.unhealthy "Failed to initialize bot: no storage") !! "bot" = Some "initialized" /\
   Lifecycle.HealthResponse.services
     (Lifecycle.unhealthy "Failed to initialize bot: no storage") !! "error" = None /\
   is_Some (Lifecycle.bot_instance
              {| Lifecycle.bot_instance := None;
                 Lifecycle.outside_state := Lifecycle.Scripted.broken |})) \/
  (Lifecycle.HealthResponse.status (Lifecycle.unhealthy "Failed to initialize bot: no storage")
     = "unhealthy" /\
   Lifecycle.HealthResponse.services
     (Lifecycle.unhealthy "Failed to initialize bot: no storage") !! "bot" = Some "error" /\
   is_Some (Lifecycle.HealthResponse.services
              (Lifecycle.unhealthy "Failed to initialize bot: no storage") !! "error") /\
   Lifecycle.HealthResponse.services
     (Lifecycle.unhealthy "Failed to initialize bot: no storage") !! "openai" = None).
Proof.
  exact (health_check_reports
           {| Lifecycle.bot_instance := None;
              Lifecycle.outside_state := Lifecycle.Scripted.broken |}
           {| Lifecycle.bot_instance := None;
              Lifecycle.outside_state := Lifecycle.Scripted.broken |}
           (Lifecycle.unhealthy "Failed to initialize bot: no storage") eq_refl).
Defined.
